(** * InstallRequirements.py: a shallow embedding and its properties

    The program reads the installed distributions, parses [requirements.txt],
    keeps the requirement lines that are not already satisfied and hands them
    to pip, falling back to a plain [pip install -r requirements.txt].

    Python [str] values are modelled as [string]; a character stands for a
    code point below 256.  A [dict] from names to versions is a
    [gmap string string].  Code that prints, touches files or starts a
    subprocess lives in a small state-and-exception monad over an explicit
    environment. *)

From Stdlib Require Import Ascii String NArith ZArith List Bool Lia.
From stdpp Require Import base option gmap strings pretty.


(** ** Characters and the [str] methods the program uses *)

Module Str.

(** [str.isspace] on one code point below 256: TAB..CR, FS..US, space,
    NEL and the no-break space. *)
Definition is_space (c : ascii) : bool :=
  let n := N_of_ascii c in
  ((9 <=? n) && (n <=? 13) || (28 <=? n) && (n <=? 32)
   || (n =? 133) || (n =? 160))%N.

(** The character class [[a-zA-Z0-9_-]] of the regular expression. *)
Definition is_name_char (c : ascii) : bool :=
  let n := N_of_ascii c in
  ((97 <=? n) && (n <=? 122) || (65 <=? n) && (n <=? 90)
   || (48 <=? n) && (n <=? 57) || (n =? 95) || (n =? 45))%N.

(** [str.lower] on one code point below 256: [A-Z] and the Latin-1 capitals
    (all of 192..222 but the multiplication sign 215) move up by 32. *)
Definition lower_char (c : ascii) : ascii :=
  let n := N_of_ascii c in
  if ((65 <=? n) && (n <=? 90)
      || (192 <=? n) && (n <=? 222) && negb (n =? 215))%N
  then ascii_of_N (n + 32) else c.

Fixpoint map (f : ascii → ascii) (s : string) : string :=
  match s with
  | EmptyString => EmptyString
  | String c r => String (f c) (map f r)
  end.

Fixpoint forallb (p : ascii → bool) (s : string) : bool :=
  match s with
  | EmptyString => true
  | String c r => p c && forallb p r
  end.

(** [s.lower()] *)
Definition lower : string → string := map lower_char.

(** [s.replace(a, b)] for one-character [a] and [b]. *)
Definition replace_char (a b : ascii) : string → string :=
  map (λ c, if Ascii.eqb c a then b else c).

(** [c in s] for a one-character [c]. *)
Fixpoint contains_char (a : ascii) (s : string) : bool :=
  match s with
  | EmptyString => false
  | String c r => Ascii.eqb c a || contains_char a r
  end.

(** [s.split(a)[0]]: the text before the first [a], all of [s] when there
    is none. *)
Fixpoint before_char (a : ascii) (s : string) : string :=
  match s with
  | EmptyString => EmptyString
  | String c r => if Ascii.eqb c a then EmptyString
                  else String c (before_char a r)
  end.

(** [s.startswith(p)] *)
Fixpoint startswith (p s : string) : bool :=
  match p with
  | EmptyString => true
  | String a p' =>
      match s with
      | EmptyString => false
      | String c s' => Ascii.eqb a c && startswith p' s'
      end
  end.

(** [p in s] for strings. *)
Fixpoint contains (p s : string) : bool :=
  match s with
  | EmptyString => startswith p s
  | String _ r => startswith p s || contains p r
  end.

(** [s.lstrip()], [s.rstrip()] and [s.strip()] without argument. *)
Fixpoint lstrip (s : string) : string :=
  match s with
  | EmptyString => EmptyString
  | String c r => if is_space c then lstrip r else s
  end.

Fixpoint rstrip (s : string) : string :=
  match s with
  | EmptyString => EmptyString
  | String c r =>
      match rstrip r with
      | EmptyString => if is_space c then EmptyString
                       else String c EmptyString
      | r' => String c r'
      end
  end.

Definition strip (s : string) : string := rstrip (lstrip s).

(** [s.replace(old, new)] for a non-empty [old]: the occurrences of [old]
    are found from the left and do not overlap.  [skip] counts the
    characters of a matched occurrence that are still to be passed. *)
Fixpoint replace_go (old new s : string) (skip : nat) : string :=
  match s with
  | EmptyString => EmptyString
  | String c r =>
      match skip with
      | S k => replace_go old new r k
      | O => if startswith old s
             then new +:+ replace_go old new r (String.length old - 1)
             else String c (replace_go old new r 0)
      end
  end.

Definition replace (old new s : string) : string := replace_go old new s 0.

(** The two groups of the [re.match] in [parse_requirement_line]: group 1
    is the longest run of name characters at the start, which must not be
    empty; group 2 is a greedy run of dots, that is everything up to the
    first line feed (a dot matches any character but the line feed). *)
Fixpoint span (p : ascii → bool) (s : string) : string * string :=
  match s with
  | EmptyString => (EmptyString, EmptyString)
  | String c r => if p c then let '(a, b) := span p r in (String c a, b)
                  else (EmptyString, s)
  end.

Definition LF : ascii := ascii_of_N 10.

Definition match_name_rest (s : string) : option (string * string) :=
  match span is_name_char s with
  | (EmptyString, _) => None
  | (g1, rest) => Some (g1, before_char LF rest)
  end.

End Str.

(** ** Requirement entries and the inventory *)

(** The dictionary built by [parse_requirement_line], with its three keys. *)
Record package_info := PackageInfo {
  name : string;
  spec : string;
  version_spec : string
}.

(** [parse_requirement_line(line)]; [None] is Python's [None]. *)
Definition parse_requirement_line (line : string) : option package_info :=
  let line := Str.strip line in
  if String.eqb line "" || Str.startswith "#" line || Str.startswith "http" line
  then None
  else
    let package_part :=
      if Str.contains_char "[" line then Str.before_char "[" line else line in
    match Str.match_name_rest package_part with
    | Some (g1, g2) =>
        Some {| name := Str.replace_char "_" "-" (Str.lower g1);
                spec := line;
                version_spec := Str.strip g2 |}
    | None => None
    end.

(** [is_package_satisfied(package_info, installed_packages)].  The membership
    test and the later subscript read the same key of the same dictionary, so
    one lookup serves both. *)
Definition is_package_satisfied
    (package_info : package_info) (installed_packages : gmap string string)
    : bool :=
  let pkg_name := name package_info in
  let version_spec := version_spec package_info in
  match installed_packages !! pkg_name with
  | None => false
  | Some installed_version =>
      if String.eqb version_spec "" || Str.startswith "[" version_spec
      then true
      else if Str.startswith "==" version_spec
      then
        let required_version := Str.strip (Str.replace "==" "" version_spec) in
        String.eqb installed_version required_version
      else false
  end.

(** [check_requirements_satisfied]: the loop appends the [spec] of every
    entry that is not satisfied. *)
Definition check_requirements_satisfied
    (required_packages : list package_info)
    (installed_packages : gmap string string) : list string :=
  fold_left
    (λ packages_to_install pkg_info,
       if negb (is_package_satisfied pkg_info installed_packages)
       then packages_to_install ++ [spec pkg_info]
       else packages_to_install)
    required_packages [].

(** The loop of [parse_requirements] over the lines of the file: every line
    that parses is appended to [packages]. *)
Definition parse_lines (lines : list string) : list package_info :=
  fold_left
    (λ packages line,
       match parse_requirement_line line with
       | Some parsed => packages ++ [parsed]
       | None => packages
       end)
    lines [].

(** ** The environment and the effects *)

(** How a call ends: with a value, with an exception (the text that
    [str(e)] gives), or with [SystemExit], which [except Exception] does
    not catch. *)
Inductive result (A : Type) : Type :=
  | Ret (a : A)
  | Raise (e : string)
  | SysExit (code : Z).
Arguments Ret {A} a.
Arguments Raise {A} e.
Arguments SysExit {A} code.

(** What the outside world answers.  A failing operation raises an exception
    of class [Exception], given as [inl] of its text; interrupts and exits
    that come from outside the program are not modelled. *)
Record World := {
  (** [sys.executable] *)
  sys_executable : string;
  (** [os.path.join(os.path.dirname(os.path.abspath(__file__)),
      "requirements.txt")] *)
  requirements_path : string;
  (** [distributions()] with, for each distribution, [metadata['Name']] and
      [version]; [inl] when anything in the enumeration raises. *)
  distributions : string + list (string * string);
  (** opening an existing file and iterating over it: the lines, or [inl]
      when [open] or a read raises. *)
  read_text : string → string + list string;
  (** [tempfile.NamedTemporaryFile(mode='w', delete=False, suffix='.txt')]:
      the fresh name without its suffix, or [inl] when it raises. *)
  named_temporary_file : string + string;
  (** [f.write] and the closing of the temporary file: [Some] when one of
      them raises. *)
  tmp_write_error : option string;
  (** [subprocess.run]: the call number, the command and the files that
      exist give the return code (or [inl] when the call raises) and the
      files that exist afterwards. *)
  run_process : nat → list string → gset string → (string + Z) * gset string;
  (** [os.remove]: [Some] when it raises, in which case the file stays. *)
  remove_error : string → option string;
  (** [str(e)] of the [FileNotFoundError] that [open] raises for a path that
      does not exist. *)
  file_not_found_text : string → string;
  (** writing a line to [sys.stdout]: [Some] of the text of the
      [UnicodeEncodeError] when the encoding of stdout cannot take the line.
      Every encoding of stdout takes ASCII, so this is asked only for a line
      that holds some other character; other failures of the stream (closed,
      broken pipe) are not modelled. *)
  encode_error : string → option string
}.

(** What the program changes: the lines printed, the subprocess commands
    started, the files that exist, and [temp_req_file], the local variable of
    [install_packages], kept here so that its [except] and [finally] blocks
    see the assignment made inside [try]. *)
Record State := {
  stdout : list string;
  calls : list (list string);
  files : gset string;
  temp_req_file : option string
}.

Definition M (A : Type) : Type := State → result A * State.

Global Instance M_ret : MRet M := λ A a s, (Ret a, s).
Global Instance M_bind : MBind M := λ A B f m s,
  match m s with
  | (Ret a, s') => f a s'
  | (Raise e, s') => (Raise e, s')
  | (SysExit c, s') => (SysExit c, s')
  end.

(** [try: m except Exception as e: h e] *)
Definition try_except {A} (m : M A) (h : string → M A) : M A := λ s,
  match m s with
  | (Raise e, s') => h e s'
  | r => r
  end.

(** [try: m except: h], the bare [except] that catches everything. *)
Definition try_except_all {A} (m : M A) (h : M A) : M A := λ s,
  match m s with
  | (Ret a, s') => (Ret a, s')
  | (_, s') => h s'
  end.

(** [try: m finally: f]: [f] runs however [m] ends; when [f] itself ends
    with an exception or an exit, that replaces the outcome of [m]. *)
Definition try_finally {A} (m : M A) (f : M unit) : M A := λ s,
  let '(r, s') := m s in
  match f s' with
  | (Ret _, s'') => (r, s'')
  | (Raise e, s'') => (Raise e, s'')
  | (SysExit c, s'') => (SysExit c, s'')
  end.

(** The state after one more printed line. *)
Definition log (line : string) (s : State) : State :=
  {| stdout := stdout s ++ [line]; calls := calls s;
     files := files s; temp_req_file := temp_req_file s |}.

(** A text of ASCII characters only. *)
Definition is_ascii (text : string) : bool :=
  Str.forallb (λ c, (N_of_ascii c <? 128)%N) text.

Definition sys_exit (code : Z) : M unit := λ s, (SysExit code, s).

Definition lift {A} (o : string + A) : M A := λ s,
  match o with
  | inl e => (Raise e, s)
  | inr a => (Ret a, s)
  end.

Definition set_temp_req_file (v : option string) : M unit := λ s,
  (Ret (), {| stdout := stdout s; calls := calls s;
              files := files s; temp_req_file := v |}).

Definition get_temp_req_file : M (option string) := λ s,
  (Ret (temp_req_file s), s).

(** [os.path.isfile] and [os.path.exists]; only regular files are modelled. *)
Definition os_path_isfile (path : string) : M bool := λ s,
  (Ret (bool_decide (path ∈ files s)), s).

Definition os_path_exists (path : string) : M bool := os_path_isfile path.

(** [", ".join]-like [sep.join(l)]. *)
Fixpoint join (sep : string) (l : list string) : string :=
  match l with
  | [] => ""
  | [x] => x
  | x :: r => x +:+ sep +:+ join sep r
  end.

Definition NL : string := String Str.LF "".

(** The check mark and the cross of the messages lie outside the modelled
    range of code points; they stand here as their UTF-8 bytes. *)
Definition CHECK : string := "✓".
Definition CROSS : string := "✗".

Section Program.

Context (w : World).

(** What [print(line)] raises, if anything. *)
Definition print_error (line : string) : option string :=
  if is_ascii line then None else encode_error w line.

(** [print(line)]: the line is encoded as a whole before anything is
    written, so a line that cannot be encoded leaves stdout as it was. *)
Definition print (line : string) : M unit := λ s,
  match print_error line with
  | Some e => (Raise e, s)
  | None => (Ret (), log line s)
  end.

(** Iterating over [open(path, 'r', encoding='utf-8')]. *)
Definition open_lines (path : string) : M (list string) := λ s,
  if bool_decide (path ∈ files s) then lift (read_text w path) s
  else (Raise (file_not_found_text w path), s).

(** Creating the temporary file: it exists from then on. *)
Definition create_temporary_file : M string := λ s,
  match named_temporary_file w with
  | inl e => (Raise e, s)
  | inr stem =>
      let fname := stem +:+ ".txt" in
      (Ret fname, {| stdout := stdout s; calls := calls s;
                     files := {[fname]} ∪ files s;
                     temp_req_file := temp_req_file s |})
  end.

Definition write_temporary_file (text : string) : M unit := λ s,
  match tmp_write_error w with
  | Some e => (Raise e, s)
  | None => (Ret (), s)
  end.

Definition subprocess_run (cmd : list string) : M Z := λ s,
  let '(o, fs) := run_process w (length (calls s)) cmd (files s) in
  let s' := {| stdout := stdout s; calls := calls s ++ [cmd];
               files := fs; temp_req_file := temp_req_file s |} in
  match o with
  | inl e => (Raise e, s')
  | inr rc => (Ret rc, s')
  end.

Definition os_remove (path : string) : M unit := λ s,
  match remove_error w path with
  | Some e => (Raise e, s)
  | None => (Ret (), {| stdout := stdout s; calls := calls s;
                        files := files s ∖ {[path]};
                        temp_req_file := temp_req_file s |})
  end.

(** [get_installed_packages()]: later distributions overwrite earlier ones
    of the same lowercased name, as in the dict comprehension. *)
Definition get_installed_packages : M (gmap string string) :=
  try_except
    (dists ← lift (distributions w);
     mret (fold_left (λ d dist, <[Str.lower dist.1 := dist.2]> d) dists ∅))
    (λ e,
       print ("Warning: Could not read installed packages: " +:+ e);;
       mret ∅).

(** [parse_requirements(requirements_path)] *)
Definition parse_requirements (requirements_path : string)
    : M (list package_info) :=
  try_except
    (lines ← open_lines requirements_path;
     mret (parse_lines lines))
    (λ e,
       print ("Error reading requirements.txt: " +:+ e);;
       mret []).

(** The [try] block of [install_packages] with its [except] clause. *)
Definition install_packages_try (packages_to_install : list string)
    : M bool :=
  try_except
    (fname ← create_temporary_file;
     set_temp_req_file (Some fname);;
     write_temporary_file (join NL packages_to_install);;
     print ("Installing " +:+ pretty (length packages_to_install)
            +:+ " package(s)...");;
     rc ← subprocess_run
            [sys_executable w; "-m"; "pip"; "install";
             "--disable-pip-version-check";
             "--no-warn-script-location"; "-q"; "-r"; fname];
     if (rc =? 0)%Z then mret true
     else
       print "Error occurred. Retrying with detailed output...";;
       rc ← subprocess_run
              [sys_executable w; "-m"; "pip"; "install";
               "--disable-pip-version-check"; "-r"; fname];
       mret (rc =? 0)%Z)
    (λ e,
       print ("Error during installation: " +:+ e);;
       mret false).

(** The [finally] block of [install_packages]: [temp_req_file] must be
    neither [None] nor empty and the file must exist for [os.remove] to be
    called; whatever [os.remove] raises is dropped. *)
Definition install_packages_finally : M () :=
  t ← get_temp_req_file;
  match t with
  | Some fname =>
      if negb (String.eqb fname "") then
        ex ← os_path_exists fname;
        if ex : bool then try_except_all (os_remove fname) (mret ())
        else mret ()
      else mret ()
  | None => mret ()
  end.

(** [install_packages(packages_to_install)] *)
Definition install_packages (packages_to_install : list string) : M bool :=
  match packages_to_install with
  | [] => mret true
  | _ =>
    set_temp_req_file None;;
    try_finally (install_packages_try packages_to_install)
                install_packages_finally
  end.

(** [install_requirements_fallback(requirements_path)] *)
Definition install_requirements_fallback (requirements_path : string)
    : M bool :=
  print "Using fallback installation method...";;
  rc ← subprocess_run
         [sys_executable w; "-m"; "pip"; "install";
          "--disable-pip-version-check"; "-r"; requirements_path];
  mret (rc =? 0)%Z.

(** [install_requirements()] *)
Definition install_requirements : M unit :=
  let requirements_path := requirements_path w in
  isfile ← os_path_isfile requirements_path;
  if negb isfile then
    print "No requirements.txt found in the script directory."
  else
    print ("Checking requirements from " +:+ requirements_path +:+ "...");;
    try_except
      (installed_packages ← get_installed_packages;
       required_packages ← parse_requirements requirements_path;
       match required_packages with
       | [] => print "No valid packages found in requirements.txt"
       | _ =>
         let packages_to_install :=
           check_requirements_satisfied required_packages installed_packages in
         match packages_to_install with
         | [] => print (CHECK +:+ " All requirements already satisfied.")
         | _ =>
           success ← install_packages packages_to_install;
           if success : bool then
             print (CHECK +:+ " All requirements installed successfully.")
           else
             print "Optimized install failed, trying fallback...";;
             ok ← install_requirements_fallback requirements_path;
             if ok : bool then
               print (CHECK +:+ " Requirements installed via fallback method.")
             else
               print (CROSS +:+ " Installation failed.");;
               sys_exit 1
         end
       end)
      (λ e,
         print ("Optimization failed (" +:+ e
                +:+ "), using standard installation...");;
         ok ← install_requirements_fallback requirements_path;
         if ok : bool then
           print (CHECK +:+ " Requirements installed successfully.")
         else
           print (CROSS +:+ " Installation failed.");;
           sys_exit 1).

(** The status with which the interpreter ends after running the script:
    0 after a normal return, the code of [sys.exit], 1 after an uncaught
    exception. *)
Definition exit_status (r : result ()) : Z :=
  match r with
  | Ret _ => 0
  | Raise _ => 1
  | SysExit code => code
  end.

End Program.

(** ** Concrete environments *)

Definition initial_state (fs : gset string) : State :=
  {| stdout := []; calls := []; files := fs; temp_req_file := None |}.

(** requests 2.31.0 is installed and the manifest pins exactly that; pip
    would succeed, files can be created and removed. *)
Definition settled_world : World :=
  {| sys_executable := "/usr/bin/python3";
     requirements_path := "/app/requirements.txt";
     distributions := inr [("Requests", "2.31.0")];
     read_text := λ _, inr ["# pinned" +:+ NL; "requests==2.31.0" +:+ NL];
     named_temporary_file := inr "/tmp/tmpk3x9";
     tmp_write_error := None;
     run_process := λ _ _ fs, (inr 0%Z, fs);
     remove_error := λ _, None;
     file_not_found_text :=
       λ p, "[Errno 2] No such file or directory: '" +:+ p +:+ "'";
     encode_error := λ _, None |}.

(** Nothing can be enumerated or read. *)
Definition broken_world : World :=
  {| sys_executable := "/usr/bin/python3";
     requirements_path := "/app/requirements.txt";
     distributions := inl "metadata is unreadable";
     read_text := λ _, inl "[Errno 13] Permission denied";
     named_temporary_file := inl "[Errno 28] No space left on device";
     tmp_write_error := None;
     run_process := λ _ _ fs, (inr 1%Z, fs);
     remove_error := λ _, None;
     file_not_found_text :=
       λ p, "[Errno 2] No such file or directory: '" +:+ p +:+ "'";
     encode_error := λ _, None |}.

(** As [settled_world], but the temporary file cannot be removed. *)
Definition locked_world : World :=
  {| sys_executable := "/usr/bin/python3";
     requirements_path := "/app/requirements.txt";
     distributions := inr [];
     read_text := λ _, inr ["requests>=2.0" +:+ NL];
     named_temporary_file := inr "/tmp/tmpk3x9";
     tmp_write_error := None;
     run_process := λ _ _ fs, (inr 0%Z, fs);
     remove_error := λ _, Some "[Errno 13] Permission denied";
     file_not_found_text :=
       λ p, "[Errno 2] No such file or directory: '" +:+ p +:+ "'";
     encode_error := λ _, None |}.

(** Nothing is installed, the manifest asks for flask, and pip refuses every
    time with return code 1. *)
Definition refusing_world : World :=
  {| sys_executable := "/usr/bin/python3";
     requirements_path := "/app/requirements.txt";
     distributions := inr [];
     read_text := λ _, inr ["flask>=2" +:+ NL];
     named_temporary_file := inr "/tmp/tmpk3x9";
     tmp_write_error := None;
     run_process := λ _ _ fs, (inr 1%Z, fs);
     remove_error := λ _, None;
     file_not_found_text :=
       λ p, "[Errno 2] No such file or directory: '" +:+ p +:+ "'";
     encode_error := λ _, None |}.

(** As [refusing_world], but no process can be started at all. *)
Definition pipless_world : World :=
  {| sys_executable := "/usr/bin/python3";
     requirements_path := "/app/requirements.txt";
     distributions := inr [];
     read_text := λ _, inr ["flask>=2" +:+ NL];
     named_temporary_file := inr "/tmp/tmpk3x9";
     tmp_write_error := None;
     run_process := λ _ _ fs, (inl "[Errno 2] No such file or directory", fs);
     remove_error := λ _, None;
     file_not_found_text :=
       λ p, "[Errno 2] No such file or directory: '" +:+ p +:+ "'";
     encode_error := λ _, None |}.

(** As [settled_world], but stdout takes ASCII only. *)
Definition ascii_world : World :=
  {| sys_executable := "/usr/bin/python3";
     requirements_path := "/app/requirements.txt";
     distributions := inr [("Requests", "2.31.0")];
     read_text := λ _, inr ["# pinned" +:+ NL; "requests==2.31.0" +:+ NL];
     named_temporary_file := inr "/tmp/tmpk3x9";
     tmp_write_error := None;
     run_process := λ _ _ fs, (inr 0%Z, fs);
     remove_error := λ _, None;
     file_not_found_text :=
       λ p, "[Errno 2] No such file or directory: '" +:+ p +:+ "'";
     encode_error := λ _, Some "'ascii' codec can't encode character" |}.

(** A home directory whose name ends in e with an acute accent, code point
    233. *)
Definition accented_home : string := "/home/zo" +:+ String (ascii_of_N 233) "".

(** Nothing can be enumerated or read, the error texts name the accented
    directory, and stdout takes ASCII only. *)
Definition accented_world : World :=
  {| sys_executable := "/usr/bin/python3";
     requirements_path := accented_home +:+ "/requirements.txt";
     distributions :=
       inl ("[Errno 13] Permission denied: '" +:+ accented_home +:+ "/lib'");
     read_text :=
       λ p, inl ("[Errno 13] Permission denied: '" +:+ p +:+ "'");
     named_temporary_file :=
       inl ("[Errno 13] Permission denied: '" +:+ accented_home +:+ "/tmp'");
     tmp_write_error := None;
     run_process := λ _ _ fs, (inr 1%Z, fs);
     remove_error := λ _, None;
     file_not_found_text :=
       λ p, "[Errno 2] No such file or directory: '" +:+ p +:+ "'";
     encode_error := λ _, Some "'ascii' codec can't encode character" |}.

(** ** Candidate statements and sample inputs *)

Definition requests_inventory : gmap string string := {["requests" := "2.31.0"]}.

(** The reading of the exact-equality rule that compares the installed
    version with the bare text after the operator. *)
Definition exact_match_is_text_after_operator
    (e : package_info) (inv : gmap string string) : Prop :=
  ∀ installed rest,
    inv !! name e = Some installed →
    version_spec e = "==" +:+ rest →
    (is_package_satisfied e inv = true ↔ installed = rest).

Definition spaced_pin : package_info :=
  {| name := "requests"; spec := "requests == 2.31.0";
     version_spec := "== 2.31.0" |}.

(** The lines that the specification calls valid pins: a non-empty name of
    name characters, the operator, and a non-empty version made of the
    characters that versions are written with. *)
Definition is_version_char (c : ascii) : bool :=
  let n := N_of_ascii c in
  ((97 <=? n) && (n <=? 122) || (65 <=? n) && (n <=? 90)
   || (48 <=? n) && (n <=? 57)
   || (n =? 46) || (n =? 42) || (n =? 43) || (n =? 33)
   || (n =? 95) || (n =? 45))%N.

Definition valid_pin (nm ver : string) : bool :=
  negb (String.eqb nm "") && Str.forallb Str.is_name_char nm
  && negb (String.eqb ver "") && Str.forallb is_version_char ver.

(** A manifest line leads to an installation when it parses and its entry is
    not satisfied. *)
Definition needs_install (inv : gmap string string) (line : string) : bool :=
  match parse_requirement_line line with
  | Some e => negb (is_package_satisfied e inv)
  | None => false
  end.

(** The reading in which the lines come back verbatim. *)
Definition returns_raw_lines (lines : list string) (inv : gmap string string)
    : Prop :=
  check_requirements_satisfied (parse_lines lines) inv
  = List.filter (needs_install inv) lines.

(** The reading in which the temporary file is gone after every call. *)
Definition temporary_file_always_removed
    (w : World) (pkgs : list string) (s : State) : Prop :=
  ∀ stem, named_temporary_file w = inr stem →
          (stem +:+ ".txt") ∉ files (install_packages w pkgs s).2.


(** The reading in which an unreadable manifest always gives the empty
    list. *)
Definition unreadable_gives_empty_list
    (w : World) (path : string) (s : State) : Prop :=
  (path ∉ files s ∨ ∃ e, read_text w path = inl e) →
  ∃ s', parse_requirements w path s = (Ret [], s').

(** The reading in which a failed enumeration always gives the empty
    mapping. *)
Definition failed_enumeration_gives_empty_mapping
    (w : World) (s : State) : Prop :=
  (∃ e, distributions w = inl e) →
  ∃ s', get_installed_packages w s = (Ret ∅, s').

(** The reading in which every line with a bracket gets an empty specifier. *)
Definition bracket_gives_empty_version_spec (line : string) : Prop :=
  Str.contains_char "[" line = true →
  ∀ e, parse_requirement_line line = Some e → version_spec e = "".

(** ** Notions for the further properties *)

(** A character of a normalised name: a lowercase letter, a digit or a
    hyphen. *)
Definition is_normalised_char (c : ascii) : bool :=
  let n := N_of_ascii c in
  ((97 <=? n) && (n <=? 122) || (48 <=? n) && (n <=? 57) || (n =? 45))%N.

(** The name as [parse_requirement_line] stores it. *)
Definition normalise (nm : string) : string :=
  Str.replace_char "_" "-" (Str.lower nm).

(** The first character of the comparison operators [>=], [>], [<=], [<],
    [~=] and [!=]. *)
Definition is_comparison_char (c : ascii) : bool :=
  let n := N_of_ascii c in
  ((n =? 62) || (n =? 60) || (n =? 126) || (n =? 33))%N.

(** The dictionary that the comprehension of [get_installed_packages]
    builds from the enumerated distributions. *)
Definition installed_of (dists : list (string * string)) : gmap string string :=
  fold_left (λ d dist, <[Str.lower dist.1 := dist.2]> d) dists ∅.

(** A stdout whose encoding takes every line. *)
Definition stdout_takes_all (w : World) : Prop :=
  ∀ line, encode_error w line = None.

(** The three pip commands of the program. *)
Definition quiet_command (w : World) (fname : string) : list string :=
  [sys_executable w; "-m"; "pip"; "install"; "--disable-pip-version-check";
   "--no-warn-script-location"; "-q"; "-r"; fname].

Definition verbose_command (w : World) (fname : string) : list string :=
  [sys_executable w; "-m"; "pip"; "install"; "--disable-pip-version-check";
   "-r"; fname].

Definition fallback_command (w : World) : list string :=
  [sys_executable w; "-m"; "pip"; "install"; "--disable-pip-version-check";
   "-r"; requirements_path w].

(** The starting of the fallback command raises [e], at some call number
    and for some set of files. *)
Definition fallback_start_raises (w : World) (e : string) : Prop :=
  ∃ n fs, (run_process w n (fallback_command w) fs).1 = inl e.

(** Some [print] raises [e]. *)
Definition some_print_raises (w : World) (e : string) : Prop :=
  ∃ line, print_error w line = Some e.

(** How the orchestration can end, [cs] being the subprocesses it started:
    normally; with exit code 1 right after a fallback call; with an exception
    raised by the starting of the fallback, which is then the last
    subprocess; or with an exception raised by a print.  More than three
    subprocesses are started only when the starting of the fallback or some
    print raised. *)
Definition orchestration_post (w : World) (r : result ()) (cs : list (list string))
    : Prop :=
  length cs ≤ 4
  ∧ (length cs ≤ 3
     ∨ (∃ e, fallback_start_raises w e) ∨ (∃ e, some_print_raises w e))
  ∧ (r = Ret ()
     ∨ (r = SysExit 1 ∧ last cs = Some (fallback_command w))
     ∨ ∃ e, r = Raise e
            ∧ ((fallback_start_raises w e
                ∧ last cs = Some (fallback_command w))
               ∨ some_print_raises w e)).

(** The outcome and the final state of running [m] from [s] satisfy [Q]. *)
Definition ends {A} (m : M A) (s : State) (Q : result A → State → Prop)
    : Prop :=
  Q (m s).1 (m s).2.

(** ** The definitions at work *)

Example strip_line :
  Str.strip ("   requests >= 2.0  " +:+ NL) = "requests >= 2.0".
Proof. reflexivity. Qed.

Example replace_leftmost :
  Str.replace "==" "" "a====b==c=" = "abc=" ∧ Str.replace "==" "" "===" = "=".
Proof. split; reflexivity. Qed.

Example skipped_lines :
  parse_requirement_line ("" +:+ NL) = None
  ∧ parse_requirement_line "  # a comment" = None
  ∧ parse_requirement_line "https://example.org/pkg.whl" = None
  ∧ parse_requirement_line "-r other.txt" = Some
      {| name := "-r"; spec := "-r other.txt"; version_spec := "other.txt" |}
  ∧ parse_requirement_line ".[dev]" = None.
Proof. repeat split; reflexivity. Qed.

Example normalised_name :
  parse_requirement_line ("  Typing_Extensions >= 4.0 " +:+ NL)
  = Some {| name := "typing-extensions"; spec := "Typing_Extensions >= 4.0";
            version_spec := ">= 4.0" |}.
Proof. reflexivity. Qed.

(** The optimized path: one quiet pip call on the temporary file, which is
    gone afterwards. *)
Example optimized_run :
  let '(r, s) := install_requirements
                   {| sys_executable := "/usr/bin/python3";
                      requirements_path := "/app/requirements.txt";
                      distributions := inr [("Requests", "2.31.0")];
                      read_text := λ _, inr ["requests==2.31.0" +:+ NL;
                                             "flask>=2" +:+ NL];
                      named_temporary_file := inr "/tmp/tmpk3x9";
                      tmp_write_error := None;
                      run_process := λ _ _ fs, (inr 0%Z, fs);
                      remove_error := λ _, None;
     file_not_found_text :=
       λ p, "[Errno 2] No such file or directory: '" +:+ p +:+ "'";
     encode_error := λ _, None |}
                   (initial_state {["/app/requirements.txt"]}) in
  r = Ret ()
  ∧ calls s = [["/usr/bin/python3"; "-m"; "pip"; "install";
                "--disable-pip-version-check"; "--no-warn-script-location";
                "-q"; "-r"; "/tmp/tmpk3x9.txt"]]
  ∧ files s = {["/app/requirements.txt"]}
  ∧ stdout s = ["Checking requirements from /app/requirements.txt...";
                "Installing 1 package(s)...";
                CHECK +:+ " All requirements installed successfully."].
Proof. vm_compute. repeat split; reflexivity. Qed.

(** Every pip call fails: quiet call, verbose retry, fallback, exit 1. *)
Example failing_run :
  let '(r, s) := install_requirements
                   {| sys_executable := "/usr/bin/python3";
                      requirements_path := "/app/requirements.txt";
                      distributions := inr [];
                      read_text := λ _, inr ["flask>=2" +:+ NL];
                      named_temporary_file := inr "/tmp/tmpk3x9";
                      tmp_write_error := None;
                      run_process := λ _ _ fs, (inr 1%Z, fs);
                      remove_error := λ _, None;
     file_not_found_text :=
       λ p, "[Errno 2] No such file or directory: '" +:+ p +:+ "'";
     encode_error := λ _, None |}
                   (initial_state {["/app/requirements.txt"]}) in
  exit_status r = 1%Z
  ∧ calls s = [["/usr/bin/python3"; "-m"; "pip"; "install";
                "--disable-pip-version-check"; "--no-warn-script-location";
                "-q"; "-r"; "/tmp/tmpk3x9.txt"];
               ["/usr/bin/python3"; "-m"; "pip"; "install";
                "--disable-pip-version-check"; "-r"; "/tmp/tmpk3x9.txt"];
               ["/usr/bin/python3"; "-m"; "pip"; "install";
                "--disable-pip-version-check"; "-r"; "/app/requirements.txt"]]
  ∧ files s = {["/app/requirements.txt"]}.
Proof. vm_compute. repeat split; reflexivity. Qed.

(** ** Facts about the string functions *)

Module StrFacts.
Import Str.

(** [lstrip] and [rstrip] take away exactly a run of whitespace, and what
    is left neither starts nor ends with whitespace. *)
Lemma lstrip_spec s :
  ∃ t, s = t +:+ lstrip s ∧ forallb is_space t = true
       ∧ match lstrip s with
         | EmptyString => True
         | String c _ => is_space c = false
         end.
Proof.
  induction s as [|c r (t & Ht & Hsp & Hhd)]; [by exists ""|].
  simpl. destruct (is_space c) eqn:E.
  - exists (String c t). cbn. rewrite E, Hsp. repeat split; [|done].
    change (String c r = String c (t +:+ lstrip r)). now rewrite <- Ht.
  - by exists "".
Qed.

Lemma rstrip_spec s :
  ∃ t, s = rstrip s +:+ t ∧ forallb is_space t = true
       ∧ rstrip (rstrip s) = rstrip s.
Proof.
  induction s as [|c r (t & Ht & Hsp & Hid)]; [by exists ""|].
  simpl. destruct (rstrip r) as [|c' r'] eqn:Er.
  - destruct (is_space c) eqn:E.
    + exists (String c t). cbn. rewrite E, Hsp. repeat split.
      change (String c r = String c ("" +:+ t)). now rewrite <- Ht.
    + exists t. cbn. rewrite E. repeat split; [|done].
      change (String c r = String c ("" +:+ t)). now rewrite <- Ht.
  - exists t. repeat split; [|done|].
    + change (String c r = String c (String c' r' +:+ t)). now rewrite <- Ht.
    + cbn [rstrip] in Hid |- *. now rewrite Hid.
Qed.

Lemma name_char_not_space c : is_name_char c = true → is_space c = false.
Proof.
  destruct c as [[] [] [] [] [] [] [] []]; vm_compute; congruence.
Qed.

Lemma name_char_not_bracket c : is_name_char c = true → Ascii.eqb c "[" = false.
Proof.
  destruct c as [[] [] [] [] [] [] [] []]; vm_compute; congruence.
Qed.

Lemma rstrip_cons_nonspace c r :
  is_space c = false → rstrip (String c r) = String c (rstrip r).
Proof. intros Hc. simpl. rewrite Hc. now destruct (rstrip r). Qed.

Lemma rstrip_app_nonspace a s :
  forallb (λ c, negb (is_space c)) a = true → rstrip (a +:+ s) = a +:+ rstrip s.
Proof.
  induction a as [|c a IH]; [done|].
  intros [Hc Ha]%andb_prop. apply negb_true_iff in Hc.
  change (rstrip (String c (a +:+ s)) = String c (a +:+ rstrip s)).
  rewrite <- (IH Ha). now apply rstrip_cons_nonspace.
Qed.

Lemma name_chars_nonspace a :
  forallb is_name_char a = true → forallb (λ c, negb (is_space c)) a = true.
Proof.
  induction a as [|c a IH]; simpl; [done|].
  intros [Hc Ha]%andb_prop. rewrite (name_char_not_space _ Hc). simpl. auto.
Qed.

(** Passing a matched occurrence: what follows [old] is replaced on its
    own. *)
Lemma replace_eqeq_head rest :
  replace "==" "" ("==" +:+ rest) = replace "==" "" rest.
Proof. reflexivity. Qed.

Lemma contains_char_lstrip a s :
  contains_char a s = false → contains_char a (lstrip s) = false.
Proof.
  induction s as [|c r IH]; simpl; [done|].
  intros [Hc Hr]%orb_false_elim. destruct (is_space c); [auto|].
  simpl. now rewrite Hc, Hr.
Qed.

Lemma contains_char_rstrip a s :
  contains_char a s = false → contains_char a (rstrip s) = false.
Proof.
  induction s as [|c r IH]; simpl; [done|].
  intros [Hc Hr]%orb_false_elim. specialize (IH Hr).
  destruct (rstrip r) as [|c' r'].
  - destruct (is_space c); simpl; [done|]. now rewrite Hc.
  - simpl in *. now rewrite Hc, IH.
Qed.

Lemma contains_char_strip a s :
  contains_char a s = false → contains_char a (strip s) = false.
Proof. intros H. now apply contains_char_rstrip, contains_char_lstrip. Qed.

Lemma contains_char_before_char_same a s :
  contains_char a (before_char a s) = false.
Proof.
  induction s as [|c r IH]; simpl; [done|].
  destruct (Ascii.eqb c a) eqn:E; simpl; [done|]. now rewrite E, IH.
Qed.

Lemma contains_char_before_char a b s :
  contains_char a s = false → contains_char a (before_char b s) = false.
Proof.
  induction s as [|c r IH]; simpl; [done|].
  intros [Hc Hr]%orb_false_elim.
  destruct (Ascii.eqb c b); simpl; [done|]. now rewrite Hc, IH.
Qed.

Lemma contains_char_span_snd a p s :
  contains_char a s = false → contains_char a (span p s).2 = false.
Proof.
  induction s as [|c r IH]; simpl; [done|].
  intros [Hc Hr]%orb_false_elim.
  destruct (p c); simpl.
  - destruct (span p r) as [x y]. simpl in *. auto.
  - now rewrite Hc, Hr.
Qed.

Lemma startswith_contains_char a s :
  startswith (String a "") s = true → contains_char a s = true.
Proof.
  destruct s as [|c r]; simpl; [done|].
  rewrite andb_true_r, Ascii.eqb_sym. now intros ->.
Qed.

Lemma span_name_chars a s :
  forallb is_name_char a = true →
  match s with EmptyString => true | String c _ => negb (is_name_char c) end = true →
  span is_name_char (a +:+ s) = (a, s).
Proof.
  intros Ha Hs. induction a as [|c a IH]; simpl in *.
  - destruct s as [|c r]; simpl; [done|].
    apply negb_true_iff in Hs. now rewrite Hs.
  - apply andb_prop in Ha as [Hc Ha]. now rewrite Hc, (IH Ha).
Qed.

Lemma before_char_app a x s :
  contains_char a x = false → before_char a (x +:+ String a s) = x.
Proof.
  induction x as [|c x IH]; simpl.
  - now rewrite Ascii.eqb_refl.
  - intros [Hc Hx]%orb_false_elim. now rewrite Hc, (IH Hx).
Qed.

Lemma before_char_absent a x :
  contains_char a x = false → before_char a x = x.
Proof.
  induction x as [|c x IH]; simpl; [done|].
  intros [Hc Hx]%orb_false_elim. now rewrite Hc, (IH Hx).
Qed.

Lemma contains_char_app a x y :
  contains_char a (x +:+ y) = contains_char a x || contains_char a y.
Proof.
  induction x as [|c x IH]; simpl; [done|]. now rewrite IH, orb_assoc.
Qed.

Lemma name_chars_no_bracket a :
  forallb is_name_char a = true → contains_char "[" a = false.
Proof.
  induction a as [|c a IH]; simpl; [done|].
  intros [Hc Ha]%andb_prop. now rewrite (name_char_not_bracket _ Hc), (IH Ha).
Qed.

Lemma rstrip_nonspace a :
  forallb (λ c, negb (is_space c)) a = true → rstrip a = a.
Proof.
  induction a as [|c a IH]; [done|].
  intros [Hc Ha]%andb_prop. apply negb_true_iff in Hc.
  now rewrite (rstrip_cons_nonspace _ _ Hc), (IH Ha).
Qed.

Lemma startswith_app p a b s :
  startswith p (a +:+ String b s) = true →
  startswith p a = true ∨ contains_char b p = true.
Proof.
  revert a. induction p as [|x p IH]; intros a; [now left|].
  destruct a as [|c a].
  - change ("" +:+ String b s) with (String b s). simpl.
    intros [Hx _]%andb_prop. right. now rewrite Hx.
  - change (String c a +:+ String b s) with (String c (a +:+ String b s)).
    simpl. intros [Hx Hp]%andb_prop. rewrite Hx. simpl.
    destruct (IH _ Hp) as [H|H]; [now left|right].
    rewrite H. apply orb_true_r.
Qed.

Lemma replace_absent old new s :
  contains old s = false → replace old new s = s.
Proof.
  unfold replace. induction s as [|c r IH]; [done|].
  cbn [contains]. intros [H1 H2]%orb_false_elim.
  cbn [replace_go]. now rewrite H1, (IH H2).
Qed.

Lemma span_all_name_chars a :
  forallb is_name_char a = true → span is_name_char a = (a, "").
Proof.
  induction a as [|c a IH]; simpl; [done|].
  intros [Hc Ha]%andb_prop. now rewrite Hc, (IH Ha).
Qed.

End StrFacts.

(** ** The satisfaction check *)

(** C1: with the inventory that maps requests to 2.31.0, the check on the
    parsed line requests==2.31.0 answers true, on requests==2.30.0 false and
    on requests>=2.0 false. *)
Theorem satisfied_requests_examples :
  (λ e, is_package_satisfied e requests_inventory)
    <$> parse_requirement_line "requests==2.31.0" = Some true
  ∧ (λ e, is_package_satisfied e requests_inventory)
    <$> parse_requirement_line "requests==2.30.0" = Some false
  ∧ (λ e, is_package_satisfied e requests_inventory)
    <$> parse_requirement_line "requests>=2.0" = Some false.
Proof. repeat split; vm_compute; reflexivity. Qed.

(** The line [requests == 2.31.0] parses to a specifier whose text after the
    operator starts with a space; the check strips it and answers true for
    the installed 2.31.0, which differs from that text. *)
Lemma exact_match_text_after_operator_fails :
  parse_requirement_line "requests == 2.31.0" = Some spaced_pin
  ∧ ¬ exact_match_is_text_after_operator spaced_pin requests_inventory.
Proof.
  split; [reflexivity|].
  intros H. specialize (H "2.31.0" " 2.31.0").
  destruct H as [H _]; [by vm_compute|reflexivity|].
  discriminate (H ltac:(vm_compute; reflexivity)).
Qed.

Lemma is_package_satisfied_pinned e inv installed rest :
  inv !! name e = Some installed →
  version_spec e = "==" +:+ rest →
  is_package_satisfied e inv
  = String.eqb installed (Str.strip (Str.replace "==" "" rest)).
Proof.
  intros Hin Hspec. unfold is_package_satisfied. rewrite Hin, Hspec.
  now rewrite StrFacts.replace_eqeq_head.
Qed.

(** C2, as amended: for an entry whose name is in the inventory and whose
    specifier begins with the exact-equality operator, the check answers true
    exactly when the installed version equals the text after the operator
    with every further occurrence of the operator removed and the
    surrounding whitespace stripped; nothing else is normalised. *)
Theorem exact_match_iff e inv installed rest :
  inv !! name e = Some installed →
  version_spec e = "==" +:+ rest →
  (is_package_satisfied e inv = true
   ↔ installed = Str.strip (Str.replace "==" "" rest)).
Proof.
  intros Hin Hspec.
  rewrite (is_package_satisfied_pinned _ _ _ _ Hin Hspec).
  apply String.eqb_eq.
Qed.

Lemma exact_match_iff_witness :
  is_package_satisfied spaced_pin requests_inventory = true
  ↔ "2.31.0" = Str.strip (Str.replace "==" "" " 2.31.0").
Proof.
  apply (exact_match_iff spaced_pin requests_inventory "2.31.0" " 2.31.0");
    [by vm_compute | reflexivity].
Defined.

(** When the text after the operator holds no further operator, only the
    whitespace around it is dropped. *)
Lemma exact_match_single_operator e inv installed rest :
  inv !! name e = Some installed →
  version_spec e = "==" +:+ rest →
  Str.contains "==" rest = false →
  (is_package_satisfied e inv = true ↔ installed = Str.strip rest).
Proof.
  intros Hin Hspec Hno.
  rewrite (is_package_satisfied_pinned _ _ _ _ Hin Hspec).
  rewrite (StrFacts.replace_absent _ _ _ Hno). apply String.eqb_eq.
Qed.

(** ** Parsing one line *)

Lemma version_char_facts c :
  is_version_char c = true →
  Str.is_space c = false ∧ Ascii.eqb c "[" = false ∧ Ascii.eqb c Str.LF = false.
Proof.
  destruct c as [[] [] [] [] [] [] [] []]; vm_compute; intuition congruence.
Qed.

Lemma version_chars_facts ver :
  Str.forallb is_version_char ver = true →
  Str.forallb (λ c, negb (Str.is_space c)) ver = true
  ∧ Str.contains_char "[" ver = false
  ∧ Str.contains_char Str.LF ver = false.
Proof.
  induction ver as [|c r IH]; simpl; [done|].
  intros [Hc Hr]%andb_prop.
  destruct (version_char_facts _ Hc) as (-> & -> & ->).
  destruct (IH Hr) as (-> & -> & ->). done.
Qed.

(** A pin whose name does not begin with http parses as the specification
    says: normalised name, the line itself, and the specifier as written. *)
Lemma parse_requirement_line_pin nm ver :
  valid_pin nm ver = true →
  Str.startswith "http" nm = false →
  parse_requirement_line (nm +:+ "==" +:+ ver)
  = Some {| name := Str.replace_char "_" "-" (Str.lower nm);
            spec := nm +:+ "==" +:+ ver;
            version_spec := "==" +:+ ver |}.
Proof.
  unfold valid_pin.
  intros [[[Hne Hnm]%andb_prop _]%andb_prop Hver]%andb_prop Hhttp.
  destruct (version_chars_facts _ Hver) as (Hsp & Hbr & Hlf).
  destruct nm as [|c nm]; [done|]. clear Hne.
  pose proof Hnm as [Hc Hnm']%andb_prop.
  set (line := String c nm +:+ "==" +:+ ver).
  assert (Hstrip : Str.strip line = line).
  { unfold Str.strip, line.
    change (String c nm +:+ "==" +:+ ver) with (String c (nm +:+ "==" +:+ ver)).
    cbn [Str.lstrip]. rewrite (StrFacts.name_char_not_space _ Hc).
    change (String c (nm +:+ "==" +:+ ver)) with (String c nm +:+ "==" +:+ ver).
    rewrite StrFacts.rstrip_app_nonspace
      by now apply StrFacts.name_chars_nonspace.
    f_equal. change ("==" +:+ ver) with (String "=" (String "=" ver)).
    rewrite !StrFacts.rstrip_cons_nonspace by reflexivity.
    now rewrite StrFacts.rstrip_nonspace. }
  assert (Hhash : Str.startswith "#" line = false).
  { unfold line. simpl. rewrite andb_true_r.
    destruct (Ascii.eqb "#" c) eqn:E; [|done].
    apply Ascii.eqb_eq in E as <-. discriminate Hc. }
  assert (Hh : Str.startswith "http" line = false).
  { destruct (Str.startswith "http" line) eqn:E; [|done].
    apply StrFacts.startswith_app in E as [E|E]; [congruence|discriminate E]. }
  assert (Hbrk : Str.contains_char "[" line = false).
  { unfold line. rewrite !StrFacts.contains_char_app.
    rewrite (StrFacts.name_chars_no_bracket _ Hnm), Hbr. reflexivity. }
  unfold parse_requirement_line. fold line. rewrite Hstrip, Hhash, Hh, Hbrk.
  replace (String.eqb line "") with false by reflexivity.
  cbn [orb]. unfold Str.match_name_rest, line.
  rewrite StrFacts.span_name_chars by done.
  rewrite StrFacts.before_char_absent
    by (change ("==" +:+ ver) with (String "=" (String "=" ver)); simpl; done).
  do 3 f_equal. unfold Str.strip.
  change ("==" +:+ ver) with (String "=" (String "=" ver)).
  cbn [Str.lstrip]. replace (Str.is_space "=") with false by reflexivity.
  rewrite !StrFacts.rstrip_cons_nonspace by reflexivity.
  now rewrite StrFacts.rstrip_nonspace.
Qed.

(** C3: the valid pin httpx==1.0 yields no entry at all, where the claim
    expects the name httpx and the specifier ==1.0; the same pin written in
    capitals does parse to exactly that. *)
Theorem httpx_pin_is_dropped :
  valid_pin "httpx" "1.0" = true
  ∧ parse_requirement_line "httpx==1.0" = None
  ∧ parse_requirement_line "HTTPX==1.0"
    = Some {| name := "httpx"; spec := "HTTPX==1.0"; version_spec := "==1.0" |}.
Proof. repeat split; reflexivity. Qed.

(** C10: a line whose stripped text starts with http yields no entry, and so
    the requirement httpx==1.0 is dropped. *)
Theorem http_prefix_is_dropped :
  (∀ line, Str.startswith "http" (Str.strip line) = true →
           parse_requirement_line line = None)
  ∧ parse_requirement_line "httpx==1.0" = None.
Proof.
  split; [|reflexivity].
  intros line H. unfold parse_requirement_line. rewrite H.
  now rewrite !orb_true_r.
Qed.

Lemma http_prefix_is_dropped_witness :
  parse_requirement_line "  https://example.org/pkg.whl " = None.
Proof.
  apply (proj1 http_prefix_is_dropped). reflexivity.
Defined.

(** ** Selecting what to install *)

Lemma check_requirements_satisfied_filter entries inv :
  check_requirements_satisfied entries inv
  = List.map spec
      (List.filter (λ e, negb (is_package_satisfied e inv)) entries).
Proof.
  unfold check_requirements_satisfied.
  enough (∀ acc,
    fold_left
      (λ packages_to_install pkg_info,
         if negb (is_package_satisfied pkg_info inv)
         then packages_to_install ++ [spec pkg_info]
         else packages_to_install)
      entries acc
    = acc ++ List.map spec
               (List.filter (λ e, negb (is_package_satisfied e inv)) entries))
    as H by apply (H []).
  induction entries as [|e entries IH]; intros acc; simpl.
  - now rewrite app_nil_r.
  - rewrite IH. destruct (is_package_satisfied e inv); simpl; [done|].
    now rewrite <- app_assoc.
Qed.

Lemma parse_lines_omap lines :
  parse_lines lines = omap parse_requirement_line lines.
Proof.
  unfold parse_lines.
  enough (∀ acc,
    fold_left
      (λ packages line,
         match parse_requirement_line line with
         | Some parsed => packages ++ [parsed]
         | None => packages
         end)
      lines acc
    = acc ++ omap parse_requirement_line lines) as H by apply (H []).
  induction lines as [|l lines IH]; intros acc; simpl.
  - now rewrite app_nil_r.
  - rewrite IH. destruct (parse_requirement_line l); simpl; [|done].
    now rewrite <- app_assoc.
Qed.

Lemma parse_requirement_line_spec line e :
  parse_requirement_line line = Some e → spec e = Str.strip line.
Proof.
  unfold parse_requirement_line. intros H.
  repeat case_match; simplify_eq; reflexivity.
Qed.

(** A line as read from the file ends with a line feed; what comes back for
    it has lost the line feed. *)
Lemma raw_line_is_not_returned :
  check_requirements_satisfied (parse_lines ["requests>=2.0" +:+ NL]) ∅
  = ["requests>=2.0"]
  ∧ ¬ returns_raw_lines ["requests>=2.0" +:+ NL] ∅.
Proof.
  split; [reflexivity|]. unfold returns_raw_lines. vm_compute. discriminate.
Qed.

(** C4, as amended: the result is the [spec] of every entry judged
    unsatisfied, in the order of the entries; for the entries parsed from the
    lines of a manifest this is the whitespace-stripped text of each line
    that needs installing, in manifest order. *)
Theorem check_requirements_satisfied_stripped_lines :
  (∀ entries inv,
     check_requirements_satisfied entries inv
     = List.map spec
         (List.filter (λ e, negb (is_package_satisfied e inv)) entries))
  ∧ (∀ lines inv,
       check_requirements_satisfied (parse_lines lines) inv
       = List.map Str.strip (List.filter (needs_install inv) lines)).
Proof.
  split; [apply check_requirements_satisfied_filter|].
  intros lines inv.
  rewrite check_requirements_satisfied_filter, parse_lines_omap.
  induction lines as [|l lines IH]; [done|].
  cbn [omap list_omap List.filter]. unfold needs_install at 1.
  destruct (parse_requirement_line l) as [e|] eqn:E; cbn; [|exact IH].
  destruct (is_package_satisfied e inv); cbn; [exact IH|].
  now rewrite IH, (parse_requirement_line_spec _ _ E).
Qed.

(** ** Printing *)

Lemma print_error_ascii w line :
  is_ascii line = true → print_error w line = None.
Proof. intros H. unfold print_error. now rewrite H. Qed.

Lemma print_error_all w line : stdout_takes_all w → print_error w line = None.
Proof. intros H. unfold print_error. rewrite (H line). now destruct is_ascii. Qed.

Lemma is_ascii_app a b : is_ascii (a +:+ b) = is_ascii a && is_ascii b.
Proof.
  unfold is_ascii. induction a as [|c a IH]; [done|].
  change (String c a +:+ b) with (String c (a +:+ b)).
  cbn [Str.forallb]. now rewrite IH, andb_assoc.
Qed.

Lemma pretty_N_go_ascii x s :
  is_ascii s = true → is_ascii (pretty_N_go x s) = true.
Proof.
  revert s. induction (N.lt_wf_0 x) as [x _ IH]. intros s Hs.
  destruct (decide (x = 0)%N) as [->|Hx]; [now rewrite pretty_N_go_0|].
  rewrite pretty_N_go_step by lia.
  apply IH; [apply N.div_lt; lia|].
  unfold is_ascii in *. cbn [Str.forallb]. rewrite Hs, andb_true_r.
  unfold pretty_N_char. by repeat case_match.
Qed.

Lemma pretty_nat_ascii (n : nat) : is_ascii (pretty n) = true.
Proof.
  unfold pretty, pretty_nat, pretty, pretty_N.
  case_decide; [done|]. now apply pretty_N_go_ascii.
Qed.

Lemma installing_line_ascii (n : nat) :
  is_ascii ("Installing " +:+ pretty n +:+ " package(s)...") = true.
Proof. now rewrite !is_ascii_app, pretty_nat_ascii. Qed.

(** Lines of ASCII text are always printed. *)
Ltac ascii_prints :=
  repeat match goal with
         | |- context [print_error ?w ?t] =>
             rewrite (print_error_ascii w t) by (vm_compute; reflexivity)
         | |- context [print_error ?w ("Installing " +:+ pretty ?n
                                       +:+ " package(s)...")] =>
             rewrite (print_error_ascii w _ (installing_line_ascii n))
         end.

(** ** Failures of the environment *)

(** The warning cannot be printed on an ASCII stdout when the text of the
    exception holds an accented letter: the print raises inside the handler
    and the call does not return. *)
Lemma failed_enumeration_can_raise :
  get_installed_packages accented_world (initial_state ∅)
  = (Raise "'ascii' codec can't encode character", initial_state ∅)
  ∧ ¬ failed_enumeration_gives_empty_mapping accented_world (initial_state ∅).
Proof.
  split; [reflexivity|].
  intros H. destruct H as [s' H]; [by eexists|]. discriminate H.
Qed.

(** C8, as amended: when enumerating the installed distributions raises,
    the call prints the warning with the text of that exception and returns
    the empty mapping, provided the warning can be written to stdout; when
    printing it raises, that exception leaves the call and nothing is
    printed. *)
Theorem get_installed_packages_failure w e s :
  distributions w = inl e →
  get_installed_packages w s
  = match print_error w ("Warning: Could not read installed packages: " +:+ e)
    with
    | None =>
        (Ret ∅, log ("Warning: Could not read installed packages: " +:+ e) s)
    | Some e' => (Raise e', s)
    end.
Proof.
  intros H.
  unfold get_installed_packages, try_except, mbind, M_bind, lift, print.
  rewrite H. now destruct (print_error w _).
Qed.

Lemma get_installed_packages_failure_witness :
  get_installed_packages broken_world (initial_state ∅)
  = (Ret ∅,
     log "Warning: Could not read installed packages: metadata is unreadable"
       (initial_state ∅)).
Proof.
  exact (get_installed_packages_failure broken_world
           "metadata is unreadable" (initial_state ∅) eq_refl).
Defined.

(** The same for the manifest: the error line holds the accented path. *)
Lemma unreadable_manifest_can_raise :
  parse_requirements accented_world (requirements_path accented_world)
    (initial_state {[requirements_path accented_world]})
  = (Raise "'ascii' codec can't encode character",
     initial_state {[requirements_path accented_world]})
  ∧ ¬ unreadable_gives_empty_list accented_world
        (requirements_path accented_world)
        (initial_state {[requirements_path accented_world]}).
Proof.
  split; [by vm_compute|].
  intros H. destruct H as [s' H]; [right; by eexists|].
  vm_compute in H. discriminate H.
Qed.

(** C7, as amended: when the manifest does not exist, cannot be opened or
    cannot be read, [parse_requirements] prints the error line with the text
    of the exception and returns the empty list, provided that line can be
    written to stdout; when printing it raises, that exception leaves the
    call and nothing is printed. *)
Theorem parse_requirements_failure w path s e :
  ((path ∉ files s) ∧ e = file_not_found_text w path)
  ∨ (path ∈ files s ∧ read_text w path = inl e) →
  parse_requirements w path s
  = match print_error w ("Error reading requirements.txt: " +:+ e) with
    | None => (Ret [], log ("Error reading requirements.txt: " +:+ e) s)
    | Some e' => (Raise e', s)
    end.
Proof.
  unfold parse_requirements, try_except, mbind, M_bind, open_lines, lift, print.
  intros [[Hout ->]|[Hin He]].
  - rewrite (bool_decide_eq_false_2 _ Hout). now destruct (print_error w _).
  - rewrite (bool_decide_eq_true_2 _ Hin), He. now destruct (print_error w _).
Qed.

Lemma parse_requirements_failure_witness :
  parse_requirements broken_world "/app/requirements.txt"
    (initial_state {["/app/requirements.txt"]})
  = (Ret [], log "Error reading requirements.txt: [Errno 13] Permission denied"
               (initial_state {["/app/requirements.txt"]})).
Proof.
  apply (parse_requirements_failure broken_world "/app/requirements.txt"
           (initial_state {["/app/requirements.txt"]})
           "[Errno 13] Permission denied").
  right. split; [|reflexivity]. apply (bool_decide_unpack _). by vm_compute.
Defined.

(** ** The temporary manifest *)

Lemma temporary_name_not_empty stem : String.eqb (stem +:+ ".txt") "" = false.
Proof. now destruct stem. Qed.

(** The [finally] block, once [temp_req_file] holds a name: afterwards the
    file is gone, provided [os.remove] does not raise. *)
Lemma install_packages_finally_removes w fname s :
  temp_req_file s = Some fname →
  String.eqb fname "" = false →
  remove_error w fname = None →
  ∃ s', install_packages_finally w s = (Ret (), s') ∧ fname ∉ files s'.
Proof.
  intros Ht Hne Hrm.
  unfold install_packages_finally, mbind, M_bind, get_temp_req_file,
    os_path_exists, os_path_isfile.
  rewrite Ht, Hne. cbn [negb].
  destruct (bool_decide (fname ∈ files s)) eqn:Hin.
  - unfold try_except_all, os_remove. rewrite Hrm.
    eexists; split; [reflexivity|]. cbn.
    intros [_ Hn]%elem_of_difference. now apply Hn, elem_of_singleton.
  - eexists; split; [reflexivity|]. now apply bool_decide_eq_false in Hin.
Qed.

(** The [try] block lets out no exception but one raised by the print of
    its own handler, and once the temporary file has been created
    [temp_req_file] holds its name. *)
Lemma install_packages_try_outcome w pkgs s stem :
  named_temporary_file w = inr stem →
  ∃ r s', install_packages_try w pkgs s = (r, s')
          ∧ temp_req_file s' = Some (stem +:+ ".txt")
          ∧ ((∃ b, r = Ret b)
             ∨ ∃ e e', r = Raise e'
                       ∧ print_error w ("Error during installation: " +:+ e)
                         = Some e').
Proof.
  intros Hnt.
  unfold install_packages_try, try_except, mbind, M_bind,
    create_temporary_file, set_temp_req_file, write_temporary_file,
    subprocess_run, print, mret, M_ret.
  rewrite Hnt. cbn.
  repeat (case_match; simplify_eq; cbn in * );
    do 2 eexists; (split; [reflexivity|]); (split; [reflexivity|]); eauto 10.
Qed.

(** When [os.remove] raises, the exception is dropped and the file stays,
    although the call reports success. *)
Lemma temporary_file_left_behind :
  (install_packages locked_world ["requests>=2.0"] (initial_state ∅)).1
  = Ret true
  ∧ ¬ temporary_file_always_removed
        locked_world ["requests>=2.0"] (initial_state ∅).
Proof.
  split; [reflexivity|].
  intros H. apply (H "/tmp/tmpk3x9" eq_refl).
  apply (bool_decide_unpack _). by vm_compute.
Qed.

(** C6, as amended: after a call of [install_packages] with something to
    install, the temporary file it created does not exist, whether pip
    succeeded, failed or an exception was raised, provided that [os.remove]
    itself does not fail on that file.  The call returns a boolean, unless
    the print of its own error line raised, in which case that exception
    leaves the call, after the file has been removed. *)
Theorem temporary_file_removed w pkgs s stem :
  pkgs ≠ [] →
  named_temporary_file w = inr stem →
  remove_error w (stem +:+ ".txt") = None →
  ∃ r s', install_packages w pkgs s = (r, s')
          ∧ ((stem +:+ ".txt") ∉ files s')
          ∧ ((∃ b, r = Ret b)
             ∨ ∃ e e', r = Raise e'
                       ∧ print_error w ("Error during installation: " +:+ e)
                         = Some e').
Proof.
  intros Hne Hnt Hrm. destruct pkgs as [|p pkgs]; [done|].
  unfold install_packages, try_finally.
  unfold mbind at 1. unfold M_bind, set_temp_req_file.
  destruct (install_packages_try_outcome w (p :: pkgs)
              {| stdout := stdout s; calls := calls s; files := files s;
                 temp_req_file := None |} stem Hnt) as (r & s1 & -> & Ht & Hr).
  destruct (install_packages_finally_removes w _ s1 Ht
              (temporary_name_not_empty stem) Hrm) as (s2 & -> & Hout).
  eauto.
Qed.

Lemma temporary_file_removed_witness :
  ∃ r s', install_packages settled_world ["requests>=2.0"] (initial_state ∅)
          = (r, s')
          ∧ ("/tmp/tmpk3x9.txt" ∉ files s')
          ∧ ((∃ b, r = Ret b)
             ∨ ∃ e e', r = Raise e'
                       ∧ print_error settled_world
                           ("Error during installation: " +:+ e) = Some e').
Proof.
  apply (temporary_file_removed settled_world ["requests>=2.0"]
           (initial_state ∅) "/tmp/tmpk3x9"); [discriminate|reflexivity..].
Defined.

(** ** The orchestration *)

Lemma get_installed_packages_frame w s :
  calls (get_installed_packages w s).2 = calls s
  ∧ files (get_installed_packages w s).2 = files s.
Proof.
  unfold get_installed_packages, try_except, mbind, M_bind, lift, print.
  destruct (distributions w); cbn; [|done].
  now destruct (print_error w _).
Qed.

Lemma parse_requirements_frame w path s :
  calls (parse_requirements w path s).2 = calls s
  ∧ files (parse_requirements w path s).2 = files s.
Proof.
  unfold parse_requirements, try_except, mbind, M_bind, open_lines, lift, print.
  destruct (bool_decide (path ∈ files s)); cbn;
    [destruct (read_text w path); cbn; [|done]|];
    now destruct (print_error w _).
Qed.




(** ** Lines with extras *)

(** A bracket after the specifier, here in a trailing comment, cuts the line
    there and leaves the specifier in place. *)
Lemma bracket_after_specifier_keeps_version_spec :
  parse_requirement_line "requests>=2.0 # [security] fix"
  = Some {| name := "requests"; spec := "requests>=2.0 # [security] fix";
            version_spec := ">=2.0 #" |}
  ∧ ¬ bracket_gives_empty_version_spec "requests>=2.0 # [security] fix".
Proof.
  split; [reflexivity|].
  intros H. specialize (H eq_refl _ eq_refl). discriminate H.
Qed.

Lemma parsed_version_spec_no_bracket line e :
  parse_requirement_line line = Some e →
  Str.contains_char "[" (version_spec e) = false.
Proof.
  unfold parse_requirement_line, Str.match_name_rest.
  set (l := Str.strip line).
  set (part := if Str.contains_char "[" l then Str.before_char "[" l else l).
  assert (Hpart : Str.contains_char "[" part = false).
  { unfold part. destruct (Str.contains_char "[" l) eqn:E; [|done].
    apply StrFacts.contains_char_before_char_same. }
  pose proof (StrFacts.contains_char_span_snd "[" Str.is_name_char part Hpart)
    as Hsnd.
  destruct (Str.span Str.is_name_char part) as [g1 rest]. cbn in Hsnd.
  intros H. repeat case_match; simplify_eq; cbn.
  all: now apply StrFacts.contains_char_strip,
         StrFacts.contains_char_before_char.
Qed.

Lemma parse_requirement_line_extras nm rest :
  nm ≠ "" →
  Str.forallb Str.is_name_char nm = true →
  Str.startswith "http" nm = false →
  parse_requirement_line (nm +:+ "[" +:+ rest)
  = Some {| name := Str.replace_char "_" "-" (Str.lower nm);
            spec := nm +:+ "[" +:+ Str.rstrip rest;
            version_spec := "" |}.
Proof.
  intros Hne Hnm Hhttp.
  destruct nm as [|c nm]; [done|]. clear Hne.
  pose proof Hnm as [Hc Hnm']%andb_prop.
  set (line := String c nm +:+ "[" +:+ Str.rstrip rest).
  assert (Hstrip : Str.strip (String c nm +:+ "[" +:+ rest) = line).
  { unfold Str.strip, line.
    change (String c nm +:+ "[" +:+ rest) with (String c (nm +:+ "[" +:+ rest)).
    cbn [Str.lstrip]. rewrite (StrFacts.name_char_not_space _ Hc).
    change (String c (nm +:+ "[" +:+ rest)) with (String c nm +:+ "[" +:+ rest).
    rewrite StrFacts.rstrip_app_nonspace
      by now apply StrFacts.name_chars_nonspace.
    f_equal. change ("[" +:+ rest) with (String "[" rest).
    now rewrite StrFacts.rstrip_cons_nonspace by reflexivity. }
  assert (Hhash : Str.startswith "#" line = false).
  { unfold line. simpl. rewrite andb_true_r.
    destruct (Ascii.eqb "#" c) eqn:E; [|done].
    apply Ascii.eqb_eq in E as <-. discriminate Hc. }
  assert (Hh : Str.startswith "http" line = false).
  { destruct (Str.startswith "http" line) eqn:E; [|done].
    apply StrFacts.startswith_app in E as [E|E]; [congruence|discriminate E]. }
  assert (Hbrk : Str.contains_char "[" line = true).
  { unfold line. rewrite StrFacts.contains_char_app.
    change ("[" +:+ Str.rstrip rest) with (String "[" (Str.rstrip rest)).
    cbn. apply orb_true_r. }
  assert (Hcut : Str.before_char "[" line = String c nm).
  { apply (StrFacts.before_char_app "[" (String c nm) (Str.rstrip rest)).
    now apply StrFacts.name_chars_no_bracket. }
  unfold parse_requirement_line. rewrite Hstrip, Hhash, Hh, Hbrk, Hcut.
  replace (String.eqb line "") with false by reflexivity.
  cbn [orb]. unfold Str.match_name_rest.
  now rewrite StrFacts.span_all_name_chars.
Qed.

Lemma is_package_satisfied_no_version_spec e inv :
  version_spec e = "" →
  (is_package_satisfied e inv = true ↔ is_Some (inv !! name e)).
Proof.
  intros H. unfold is_package_satisfied. rewrite H.
  destruct (inv !! name e); cbn; [|rewrite is_Some_alt]; naive_solver.
Qed.

(** C9, as amended: the specifier of a parsed entry is taken from the text
    before the first bracket, so it never contains a bracket, never starts
    with one, and the extras branch of the check cannot be taken for a parsed
    entry; when the bracket follows the name directly the specifier is empty
    and the entry is satisfied exactly when the name is installed, as for
    pkg[extras]==1.0, whose ==1.0 is ignored. *)
Theorem extras_cut_the_line :
  (∀ line e, parse_requirement_line line = Some e →
     Str.contains_char "[" (version_spec e) = false
     ∧ Str.startswith "[" (version_spec e) = false)
  ∧ (∀ nm rest e inv,
       nm ≠ "" → Str.forallb Str.is_name_char nm = true →
       Str.startswith "http" nm = false →
       parse_requirement_line (nm +:+ "[" +:+ rest) = Some e →
       version_spec e = ""
       ∧ (is_package_satisfied e inv = true ↔ is_Some (inv !! name e)))
  ∧ (parse_requirement_line "pkg[extras]==1.0"
     = Some {| name := "pkg"; spec := "pkg[extras]==1.0"; version_spec := "" |}
     ∧ ∀ v, is_package_satisfied
              {| name := "pkg"; spec := "pkg[extras]==1.0"; version_spec := "" |}
              {["pkg" := v]} = true).
Proof.
  split; [|split].
  - intros line e H.
    pose proof (parsed_version_spec_no_bracket _ _ H) as Hno.
    split; [done|].
    destruct (Str.startswith "[" (version_spec e)) eqn:E; [|done].
    apply StrFacts.startswith_contains_char in E. congruence.
  - intros nm rest e inv Hne Hnm Hhttp H.
    rewrite (parse_requirement_line_extras _ _ Hne Hnm Hhttp) in H.
    simplify_eq. split; [done|].
    now apply is_package_satisfied_no_version_spec.
  - split; [reflexivity|]. intros v.
    apply is_package_satisfied_no_version_spec; [done|].
    cbn. rewrite lookup_singleton_eq. eauto.
Qed.

Lemma extras_cut_the_line_witness :
  (Str.contains_char "[" ">=2.0 #" = false
   ∧ Str.startswith "[" ">=2.0 #" = false)
  ∧ (is_package_satisfied
       {| name := "uvicorn"; spec := "uvicorn[standard]>=0.20";
          version_spec := "" |} {["uvicorn" := "0.1"]} = true
     ↔ is_Some (({["uvicorn" := "0.1"]} : gmap string string) !! "uvicorn")).
Proof.
  split.
  - apply (proj1 extras_cut_the_line "requests>=2.0 # [security] fix"
             {| name := "requests"; spec := "requests>=2.0 # [security] fix";
                version_spec := ">=2.0 #" |}).
    reflexivity.
  - apply (proj1 (proj2 extras_cut_the_line) "uvicorn" "standard]>=0.20"
             {| name := "uvicorn"; spec := "uvicorn[standard]>=0.20";
                version_spec := "" |} {["uvicorn" := "0.1"]});
      [discriminate | reflexivity..].
Defined.

(** ** Further properties of the parser *)

Lemma lstrip_app_space ws s :
  Str.forallb Str.is_space ws = true → Str.lstrip (ws +:+ s) = Str.lstrip s.
Proof.
  induction ws as [|c ws IH]; [done|].
  intros [Hc Hws]%andb_prop.
  change (String c ws +:+ s) with (String c (ws +:+ s)).
  cbn [Str.lstrip]. rewrite Hc. auto.
Qed.

Lemma lstrip_all_space ws :
  Str.forallb Str.is_space ws = true → Str.lstrip ws = "".
Proof.
  induction ws as [|c ws IH]; [done|].
  intros [Hc Hws]%andb_prop. cbn [Str.lstrip]. rewrite Hc. auto.
Qed.

Lemma lstrip_rstrip_lstrip s :
  Str.lstrip (Str.rstrip (Str.lstrip s)) = Str.rstrip (Str.lstrip s).
Proof.
  destruct (StrFacts.lstrip_spec s) as (_ & _ & _ & Hhd).
  destruct (Str.lstrip s) as [|c r]; [done|].
  rewrite (StrFacts.rstrip_cons_nonspace _ _ Hhd).
  cbn [Str.lstrip]. now rewrite Hhd.
Qed.

Lemma strip_fixed s : Str.strip (Str.strip s) = Str.strip s.
Proof.
  unfold Str.strip. rewrite lstrip_rstrip_lstrip.
  now destruct (StrFacts.rstrip_spec (Str.lstrip s)) as (_ & _ & _ & ->).
Qed.

Lemma parse_requirement_line_strip line :
  parse_requirement_line (Str.strip line) = parse_requirement_line line.
Proof. unfold parse_requirement_line. now rewrite strip_fixed. Qed.

(** X1: the [spec] of a parsed entry parses again to the same entry, so the
    lines handed on can be read back unchanged. *)
Theorem parse_spec_again line e :
  parse_requirement_line line = Some e →
  parse_requirement_line (spec e) = Some e.
Proof.
  intros H. rewrite (parse_requirement_line_spec _ _ H).
  now rewrite parse_requirement_line_strip.
Qed.

Lemma parse_spec_again_witness :
  parse_requirement_line "Typing_Extensions >= 4.0"
  = Some {| name := "typing-extensions"; spec := "Typing_Extensions >= 4.0";
            version_spec := ">= 4.0" |}.
Proof.
  apply (parse_spec_again ("  Typing_Extensions >= 4.0 " +:+ NL)
           {| name := "typing-extensions"; spec := "Typing_Extensions >= 4.0";
              version_spec := ">= 4.0" |}).
  reflexivity.
Defined.

Lemma span_fst_forallb p s : Str.forallb p (Str.span p s).1 = true.
Proof.
  induction s as [|c r IH]; [done|]. simpl.
  destruct (p c) eqn:E; [|done].
  destruct (Str.span p r) as [a b]. simpl in *. now rewrite E.
Qed.

Lemma normalised_char c :
  Str.is_name_char c = true →
  is_normalised_char
    (if Ascii.eqb (Str.lower_char c) "_" then "-"%char else Str.lower_char c)
  = true.
Proof.
  destruct c as [[] [] [] [] [] [] [] []]; vm_compute; congruence.
Qed.

Lemma normalise_chars g :
  Str.forallb Str.is_name_char g = true →
  Str.forallb is_normalised_char (normalise g) = true.
Proof.
  induction g as [|c g IH]; [done|].
  intros [Hc Hg]%andb_prop. unfold normalise, Str.replace_char, Str.lower.
  cbn [Str.map Str.forallb]. rewrite (normalised_char _ Hc). now apply IH.
Qed.

Lemma parse_requirement_line_name line e :
  parse_requirement_line line = Some e →
  ∃ g, g ≠ "" ∧ Str.forallb Str.is_name_char g = true ∧ name e = normalise g.
Proof.
  unfold parse_requirement_line, Str.match_name_rest. intros H.
  repeat case_match; simplify_eq; cbn.
  all: match goal with
       | E : Str.span _ ?part = (?g, _) |- _ =>
           exists g; pose proof (span_fst_forallb Str.is_name_char part) as Hg;
           rewrite E in Hg; cbn in Hg; repeat split; done
       end.
Qed.

Lemma parsed_name_is_normalised_aux line e :
  parse_requirement_line line = Some e →
  Str.forallb is_normalised_char (name e) = true.
Proof.
  intros (g & Hne & Hg & ->)%parse_requirement_line_name.
  now apply normalise_chars.
Qed.

(** X2: the name of every parsed entry is not empty and holds only lowercase
    letters, digits and hyphens: no capital and no underscore survives. *)
Theorem parsed_name_is_normalised line e :
  parse_requirement_line line = Some e →
  name e ≠ "" ∧ Str.forallb is_normalised_char (name e) = true.
Proof.
  intros (g & Hne & Hg & ->)%parse_requirement_line_name. split.
  - destruct g; [done|discriminate].
  - now apply normalise_chars.
Qed.

Lemma parsed_name_is_normalised_witness :
  "typing-extensions" ≠ ""
  ∧ Str.forallb is_normalised_char "typing-extensions" = true.
Proof.
  apply (parsed_name_is_normalised "Typing_Extensions >= 4.0"
           {| name := "typing-extensions"; spec := "Typing_Extensions >= 4.0";
              version_spec := ">= 4.0" |}).
  reflexivity.
Defined.

(** X3: a line of whitespace only, and a line whose first character after
    leading whitespace is the comment sign, yield no entry. *)
Theorem blank_and_comment_lines_are_skipped ws rest :
  Str.forallb Str.is_space ws = true →
  parse_requirement_line ws = None
  ∧ parse_requirement_line (ws +:+ "#" +:+ rest) = None.
Proof.
  intros Hws. unfold parse_requirement_line, Str.strip. split.
  - now rewrite (lstrip_all_space _ Hws).
  - rewrite (lstrip_app_space _ _ Hws).
    change ("#" +:+ rest) with (String "#" rest).
    cbn [Str.lstrip]. replace (Str.is_space "#") with false by reflexivity.
    rewrite StrFacts.rstrip_cons_nonspace by reflexivity.
    cbn. reflexivity.
Qed.

Lemma blank_and_comment_lines_are_skipped_witness :
  parse_requirement_line ("   " +:+ NL) = None
  ∧ parse_requirement_line (("   " +:+ NL) +:+ "#" +:+ " requests==1.0") = None.
Proof.
  apply (blank_and_comment_lines_are_skipped ("   " +:+ NL) " requests==1.0").
  reflexivity.
Defined.

(** ** Whole lines through parser and check *)

Lemma lstrip_nonspace a :
  Str.forallb (λ c, negb (Str.is_space c)) a = true → Str.lstrip a = a.
Proof.
  destruct a as [|c a]; [done|]. intros [Hc _]%andb_prop.
  apply negb_true_iff in Hc. cbn [Str.lstrip]. now rewrite Hc.
Qed.

Lemma strip_nonspace a :
  Str.forallb (λ c, negb (Str.is_space c)) a = true → Str.strip a = a.
Proof.
  intros H. unfold Str.strip.
  now rewrite (lstrip_nonspace _ H), (StrFacts.rstrip_nonspace _ H).
Qed.

Lemma version_chars_no_operator ver :
  Str.forallb is_version_char ver = true → Str.contains "==" ver = false.
Proof.
  induction ver as [|c r IH]; [done|].
  intros [Hc Hr]%andb_prop. cbn [Str.contains Str.startswith].
  rewrite (IH Hr), orb_false_r.
  replace (Ascii.eqb "=" c) with false; [done|].
  destruct c as [[] [] [] [] [] [] [] []]; vm_compute in Hc |- *; congruence.
Qed.

Lemma is_package_satisfied_absent e inv :
  inv !! name e = None → is_package_satisfied e inv = false.
Proof. intros H. unfold is_package_satisfied. now rewrite H. Qed.

(** X4: a valid pin whose name does not begin with http is left out of the
    installation exactly when the inventory holds that very version under the
    normalised name. *)
Theorem pin_skipped_iff_installed nm ver inv :
  valid_pin nm ver = true →
  Str.startswith "http" nm = false →
  (needs_install inv (nm +:+ "==" +:+ ver) = false
   ↔ inv !! normalise nm = Some ver).
Proof.
  intros Hvalid Hhttp. unfold needs_install.
  rewrite (parse_requirement_line_pin _ _ Hvalid Hhttp).
  fold (normalise nm). rewrite negb_false_iff.
  apply andb_prop in Hvalid as [_ Hver].
  destruct (version_chars_facts _ Hver) as (Hsp & _ & _).
  destruct (inv !! normalise nm) as [v|] eqn:E.
  - rewrite (is_package_satisfied_pinned
               {| name := normalise nm; spec := nm +:+ "==" +:+ ver;
                  version_spec := "==" +:+ ver |} inv v ver E eq_refl).
    rewrite (StrFacts.replace_absent _ _ _ (version_chars_no_operator _ Hver)).
    rewrite (strip_nonspace _ Hsp), String.eqb_eq. naive_solver.
  - rewrite is_package_satisfied_absent by exact E. naive_solver.
Qed.

Lemma pin_skipped_iff_installed_witness :
  needs_install requests_inventory ("Requests" +:+ "==" +:+ "2.31.0") = false
  ↔ requests_inventory !! normalise "Requests" = Some "2.31.0".
Proof.
  apply (pin_skipped_iff_installed "Requests" "2.31.0" requests_inventory);
    reflexivity.
Defined.

Lemma parse_requirement_line_bare nm :
  nm ≠ "" →
  Str.forallb Str.is_name_char nm = true →
  Str.startswith "http" nm = false →
  parse_requirement_line nm
  = Some {| name := normalise nm; spec := nm; version_spec := "" |}.
Proof.
  intros Hne Hnm Hhttp.
  pose proof (strip_nonspace _ (StrFacts.name_chars_nonspace _ Hnm)) as Hstrip.
  pose proof (StrFacts.name_chars_no_bracket _ Hnm) as Hbrk.
  unfold parse_requirement_line, Str.match_name_rest.
  rewrite Hstrip, Hhttp, Hbrk, (StrFacts.span_all_name_chars _ Hnm).
  destruct nm as [|c nm]; [done|].
  apply andb_prop in Hnm as [Hc _].
  replace (Str.startswith "#" (String c nm)) with false; [reflexivity|].
  cbn. rewrite andb_true_r. destruct (Ascii.eqb "#" c) eqn:E; [|done].
  apply Ascii.eqb_eq in E as <-. discriminate Hc.
Qed.

(** X5: a line that is just a name (not beginning with http) is left out of
    the installation exactly when the normalised name is in the inventory,
    at whatever version. *)
Theorem bare_name_skipped_iff_installed nm inv :
  nm ≠ "" →
  Str.forallb Str.is_name_char nm = true →
  Str.startswith "http" nm = false →
  (needs_install inv nm = false ↔ is_Some (inv !! normalise nm)).
Proof.
  intros Hne Hnm Hhttp. unfold needs_install.
  rewrite (parse_requirement_line_bare _ Hne Hnm Hhttp), negb_false_iff.
  now apply is_package_satisfied_no_version_spec.
Qed.

Lemma bare_name_skipped_iff_installed_witness :
  needs_install requests_inventory "Requests" = false
  ↔ is_Some (requests_inventory !! normalise "Requests").
Proof.
  apply (bare_name_skipped_iff_installed "Requests" requests_inventory);
    [discriminate | reflexivity..].
Defined.

Lemma comparison_char_facts c :
  is_comparison_char c = true →
  Str.is_space c = false ∧ Str.is_name_char c = false
  ∧ Ascii.eqb c "[" = false ∧ Ascii.eqb c Str.LF = false
  ∧ Ascii.eqb "=" c = false ∧ Ascii.eqb "[" c = false
  ∧ Str.contains_char c "http" = false.
Proof.
  destruct c as [[] [] [] [] [] [] [] []]; vm_compute; intuition congruence.
Qed.

Lemma package_part_is_before_bracket l :
  (if Str.contains_char "[" l then Str.before_char "[" l else l)
  = Str.before_char "[" l.
Proof.
  destruct (Str.contains_char "[" l) eqn:E; [done|].
  now rewrite StrFacts.before_char_absent.
Qed.

Lemma before_char_app_absent a x y :
  Str.contains_char a x = false →
  Str.before_char a (x +:+ y) = x +:+ Str.before_char a y.
Proof.
  induction x as [|c x IH]; [done|].
  cbn [Str.contains_char]. intros [Hc Hx]%orb_false_elim.
  change (String c x +:+ y) with (String c (x +:+ y)).
  cbn [Str.before_char]. rewrite Hc, (IH Hx). reflexivity.
Qed.

Lemma parse_requirement_line_comparison nm c r :
  nm ≠ "" →
  Str.forallb Str.is_name_char nm = true →
  Str.startswith "http" nm = false →
  is_comparison_char c = true →
  ∃ z, parse_requirement_line (nm +:+ String c r)
       = Some {| name := normalise nm;
                 spec := nm +:+ String c (Str.rstrip r);
                 version_spec := String c z |}.
Proof.
  intros Hne Hnm Hhttp Hc.
  destruct (comparison_char_facts _ Hc) as (Hsp & Hnc & Hbr & Hlf & _ & _ & Hh).
  destruct nm as [|c0 nm]; [done|]. clear Hne.
  pose proof Hnm as [Hc0 _]%andb_prop.
  set (line := String c0 nm +:+ String c (Str.rstrip r)).
  assert (Hstrip : Str.strip (String c0 nm +:+ String c r) = line).
  { unfold Str.strip, line.
    change (String c0 nm +:+ String c r) with (String c0 (nm +:+ String c r)).
    cbn [Str.lstrip]. rewrite (StrFacts.name_char_not_space _ Hc0).
    change (String c0 (nm +:+ String c r)) with (String c0 nm +:+ String c r).
    rewrite StrFacts.rstrip_app_nonspace
      by now apply StrFacts.name_chars_nonspace.
    now rewrite StrFacts.rstrip_cons_nonspace. }
  assert (Hhash : Str.startswith "#" line = false).
  { unfold line. simpl. rewrite andb_true_r.
    destruct (Ascii.eqb "#" c0) eqn:E; [|done].
    apply Ascii.eqb_eq in E as <-. discriminate Hc0. }
  assert (Hh' : Str.startswith "http" line = false).
  { destruct (Str.startswith "http" line) eqn:E; [|done].
    apply StrFacts.startswith_app in E as [E|E]; congruence. }
  unfold parse_requirement_line.
  rewrite Hstrip, Hhash, Hh', package_part_is_before_bracket.
  replace (String.eqb line "") with false by reflexivity.
  cbn [orb]. unfold line at 1.
  rewrite before_char_app_absent by now apply StrFacts.name_chars_no_bracket.
  cbn [Str.before_char]. rewrite Hbr.
  unfold Str.match_name_rest.
  rewrite StrFacts.span_name_chars by (done || now rewrite Hnc).
  cbn [Str.before_char]. rewrite Hlf.
  unfold Str.strip. cbn [Str.lstrip]. rewrite Hsp.
  rewrite StrFacts.rstrip_cons_nonspace by done.
  eexists. reflexivity.
Qed.

(** X6: a requirement whose name is followed directly by a comparison
    operator (one that begins with >, <, ~ or !) is handed to the installer
    whatever the inventory holds: no version is ever compared. *)
Theorem comparison_is_always_installed nm c r inv :
  nm ≠ "" →
  Str.forallb Str.is_name_char nm = true →
  Str.startswith "http" nm = false →
  is_comparison_char c = true →
  needs_install inv (nm +:+ String c r) = true.
Proof.
  intros Hne Hnm Hhttp Hc.
  destruct (parse_requirement_line_comparison nm c r Hne Hnm Hhttp Hc)
    as (z & Hparse).
  destruct (comparison_char_facts _ Hc) as (_ & _ & _ & _ & Heq & Hbr & _).
  unfold needs_install. rewrite Hparse. apply negb_true_iff.
  unfold is_package_satisfied. cbn [name version_spec].
  destruct (inv !! normalise nm); [|done].
  cbn [String.eqb Str.startswith]. now rewrite Hbr, Heq.
Qed.

Lemma comparison_is_always_installed_witness :
  needs_install {["requests" := "2.31.0"]} ("requests" +:+ ">=2.0") = true.
Proof.
  apply (comparison_is_always_installed "requests" ">" "=2.0");
    [discriminate | reflexivity..].
Defined.

(** ** The inventory *)

Lemma get_installed_packages_ok w dists s :
  distributions w = inr dists →
  get_installed_packages w s = (Ret (installed_of dists), s).
Proof.
  intros H. unfold get_installed_packages, try_except, mbind, M_bind, lift.
  now rewrite H.
Qed.

Lemma lower_char_fixed c : Str.lower_char (Str.lower_char c) = Str.lower_char c.
Proof. destruct c as [[] [] [] [] [] [] [] []]; reflexivity. Qed.

Lemma lower_fixed nm : Str.lower (Str.lower nm) = Str.lower nm.
Proof.
  induction nm as [|c nm IH]; [done|].
  unfold Str.lower in *. cbn [Str.map]. now rewrite lower_char_fixed, IH.
Qed.

Lemma lower_char_underscore c :
  Ascii.eqb (Str.lower_char c) "_" = Ascii.eqb c "_".
Proof. destruct c as [[] [] [] [] [] [] [] []]; reflexivity. Qed.

Lemma lower_underscore nm :
  Str.contains_char "_" (Str.lower nm) = Str.contains_char "_" nm.
Proof.
  induction nm as [|c nm IH]; [done|].
  unfold Str.lower in *. cbn [Str.map Str.contains_char].
  now rewrite lower_char_underscore, IH.
Qed.

Lemma installed_of_snoc dists nm v :
  installed_of (dists ++ [(nm, v)]) = <[Str.lower nm := v]> (installed_of dists).
Proof. unfold installed_of. now rewrite fold_left_app. Qed.

Lemma installed_of_lookup dists k v :
  installed_of dists !! k = Some v →
  ∃ nm, (nm, v) ∈ dists ∧ Str.lower nm = k.
Proof.
  induction dists as [|[nm v'] dists IH] using rev_ind; [done|].
  rewrite installed_of_snoc.
  destruct (decide (Str.lower nm = k)) as [<-|Hne].
  - rewrite lookup_insert_eq. intros [= ->]. exists nm.
    split; [|done]. apply elem_of_app. right. apply list_elem_of_singleton.
    done.
  - rewrite lookup_insert_ne by done. intros (nm' & Hin & Hk)%IH.
    exists nm'. split; [|done]. apply elem_of_app. now left.
Qed.

Lemma fold_installed_other (l : list (string * string))
    (m : gmap string string) k :
  (∀ d, d ∈ l → Str.lower d.1 ≠ k) →
  fold_left (λ d dist, <[Str.lower dist.1 := dist.2]> d) l m !! k = m !! k.
Proof.
  revert m. induction l as [|d l IH]; intros m Hl; [done|].
  cbn [fold_left]. rewrite IH.
  - apply lookup_insert_ne, Hl. left.
  - intros d' Hd'. apply Hl. now right.
Qed.

(** X7: when the enumeration succeeds nothing is printed, every key of the
    inventory is in lowercase, and it maps to the version of an enumerated
    distribution whose lowercased name it is. *)
Theorem inventory_keys_are_lowercased_names w dists s inv s' k v :
  distributions w = inr dists →
  get_installed_packages w s = (Ret inv, s') →
  inv !! k = Some v →
  s' = s ∧ Str.lower k = k ∧ ∃ nm, (nm, v) ∈ dists ∧ Str.lower nm = k.
Proof.
  intros Hd Hrun Hk. rewrite (get_installed_packages_ok _ _ _ Hd) in Hrun.
  simplify_eq. destruct (installed_of_lookup _ _ _ Hk) as (nm & Hin & <-).
  split; [done|]. split; [apply lower_fixed|]. eauto.
Qed.

Lemma inventory_keys_are_lowercased_names_witness :
  initial_state ∅ = initial_state ∅
  ∧ Str.lower "requests" = "requests"
  ∧ ∃ nm, (nm, "2.31.0") ∈ [("Requests", "2.31.0")]
          ∧ Str.lower nm = "requests".
Proof.
  apply (inventory_keys_are_lowercased_names settled_world
           [("Requests", "2.31.0")] (initial_state ∅)
           {["requests" := "2.31.0"]} (initial_state ∅) "requests" "2.31.0");
    [reflexivity | reflexivity | by vm_compute].
Defined.

(** X8: a distribution is found under its lowercased name with its own
    version, unless a later distribution has the same lowercased name, in
    which case the later one wins. *)
Theorem inventory_holds_last_distribution w l1 nm v l2 s inv s' :
  distributions w = inr (l1 ++ (nm, v) :: l2) →
  (∀ d, d ∈ l2 → Str.lower d.1 ≠ Str.lower nm) →
  get_installed_packages w s = (Ret inv, s') →
  inv !! Str.lower nm = Some v.
Proof.
  intros Hd Hl2 Hrun. rewrite (get_installed_packages_ok _ _ _ Hd) in Hrun.
  simplify_eq. unfold installed_of. rewrite fold_left_app. cbn [fold_left].
  rewrite (fold_installed_other _ _ _ Hl2). apply lookup_insert_eq.
Qed.

Lemma inventory_holds_last_distribution_witness :
  ({["requests" := "2.31.0"]} : gmap string string) !! Str.lower "Requests"
  = Some "2.31.0".
Proof.
  apply (inventory_holds_last_distribution settled_world
           [] "Requests" "2.31.0" [] (initial_state ∅)
           {["requests" := "2.31.0"]} (initial_state ∅));
    [reflexivity | | reflexivity].
  intros d Hd. by apply elem_of_nil in Hd.
Defined.

Lemma normalised_chars_no_underscore nm :
  Str.forallb is_normalised_char nm = true → Str.contains_char "_" nm = false.
Proof.
  induction nm as [|c nm IH]; [done|].
  intros [Hc Hnm]%andb_prop. cbn [Str.contains_char]. rewrite (IH Hnm).
  replace (Ascii.eqb c "_") with false; [done|].
  destruct c as [[] [] [] [] [] [] [] []]; vm_compute in Hc |- *; congruence.
Qed.

(** X9: the names of entries have their underscores turned into hyphens but
    the keys of the inventory have not, so a requirement is only ever judged
    satisfied through a distribution whose name holds no underscore. *)
Theorem satisfied_only_by_names_without_underscore w dists s inv s' line e :
  distributions w = inr dists →
  get_installed_packages w s = (Ret inv, s') →
  parse_requirement_line line = Some e →
  is_package_satisfied e inv = true →
  ∃ nm v, (nm, v) ∈ dists ∧ Str.lower nm = name e
          ∧ Str.contains_char "_" nm = false.
Proof.
  intros Hd Hrun Hparse Hsat.
  rewrite (get_installed_packages_ok _ _ _ Hd) in Hrun. simplify_eq.
  destruct (installed_of dists !! name e) as [v|] eqn:E.
  - destruct (installed_of_lookup _ _ _ E) as (nm & Hin & Hnm).
    exists nm, v. repeat split; [done..|].
    rewrite <- lower_underscore, Hnm.
    apply normalised_chars_no_underscore.
    now apply (parsed_name_is_normalised_aux line).
  - now rewrite is_package_satisfied_absent in Hsat.
Qed.

Lemma satisfied_only_by_names_without_underscore_witness :
  ∃ nm v, (nm, v) ∈ [("Requests", "2.31.0")] ∧ Str.lower nm = "requests"
          ∧ Str.contains_char "_" nm = false.
Proof.
  apply (satisfied_only_by_names_without_underscore settled_world
           [("Requests", "2.31.0")] (initial_state ∅)
           {["requests" := "2.31.0"]} (initial_state ∅) "requests==2.31.0"
           {| name := "requests"; spec := "requests==2.31.0";
              version_spec := "==2.31.0" |});
    [reflexivity | reflexivity | reflexivity | by vm_compute].
Defined.

(** ** Further properties of the selection *)

(** X10: when the enumeration of the distributions fails, every entry of the
    manifest is selected for installation. *)
Theorem failed_enumeration_selects_everything w err s inv s' entries :
  distributions w = inl err →
  get_installed_packages w s = (Ret inv, s') →
  check_requirements_satisfied entries inv = List.map spec entries.
Proof.
  intros Hd Hrun.
  unfold get_installed_packages, try_except, mbind, M_bind, lift in Hrun.
  rewrite Hd in Hrun. unfold print, mret, M_ret in Hrun.
  destruct (print_error w _); simplify_eq.
  rewrite check_requirements_satisfied_filter. f_equal.
  induction entries as [|e entries IH]; [done|].
  cbn [List.filter].
  rewrite (is_package_satisfied_absent e ∅) by apply lookup_empty.
  cbn. now rewrite IH.
Qed.

Lemma failed_enumeration_selects_everything_witness :
  check_requirements_satisfied [spaced_pin] ∅ = List.map spec [spaced_pin].
Proof.
  apply (failed_enumeration_selects_everything broken_world
           "metadata is unreadable" (initial_state ∅) ∅
           (log "Warning: Could not read installed packages: metadata is unreadable"
              (initial_state ∅)));
    reflexivity.
Defined.

Lemma is_package_satisfied_mono e (inv inv' : gmap string string) :
  inv ⊆ inv' →
  is_package_satisfied e inv = true → is_package_satisfied e inv' = true.
Proof.
  intros Hsub. unfold is_package_satisfied.
  destruct (inv !! name e) as [v|] eqn:E; [|done].
  now rewrite (lookup_weaken _ _ _ _ E Hsub).
Qed.

(** X11: installing more never adds work: when an inventory is extended by
    further names, what is selected is a sublist of what was selected
    before. *)
Theorem larger_inventory_selects_less entries (inv inv' : gmap string string) :
  inv ⊆ inv' →
  sublist (check_requirements_satisfied entries inv')
          (check_requirements_satisfied entries inv).
Proof.
  intros Hsub. rewrite !check_requirements_satisfied_filter.
  induction entries as [|e entries IH]; [done|].
  cbn [List.filter].
  destruct (is_package_satisfied e inv) eqn:E.
  - rewrite (is_package_satisfied_mono _ _ _ Hsub E). exact IH.
  - destruct (is_package_satisfied e inv'); cbn.
    + now apply sublist_cons.
    + now apply sublist_skip.
Qed.

Lemma larger_inventory_selects_less_witness :
  sublist (check_requirements_satisfied [spaced_pin] requests_inventory)
          (check_requirements_satisfied [spaced_pin] ∅).
Proof.
  apply (larger_inventory_selects_less [spaced_pin] ∅ requests_inventory).
  apply map_empty_subseteq.
Defined.

(** X12: lines are judged one by one: parsing and selecting both distribute
    over the concatenation of manifests. *)
Theorem parsing_and_selection_are_linewise :
  (∀ l1 l2, parse_lines (l1 ++ l2) = parse_lines l1 ++ parse_lines l2)
  ∧ (∀ e1 e2 inv,
       check_requirements_satisfied (e1 ++ e2) inv
       = check_requirements_satisfied e1 inv
         ++ check_requirements_satisfied e2 inv).
Proof.
  split.
  - intros l1 l2. rewrite !parse_lines_omap. apply omap_app.
  - intros e1 e2 inv. rewrite !check_requirements_satisfied_filter.
    now rewrite List.filter_app, List.map_app.
Qed.

(** ** Further properties of the installation *)

Lemma install_packages_finally_returns w s :
  ∃ s', install_packages_finally w s = (Ret (), s')
        ∧ calls s' = calls s ∧ stdout s' = stdout s
        ∧ files s' ⊆ files s.
Proof.
  unfold install_packages_finally, mbind, M_bind, get_temp_req_file,
    os_path_exists, os_path_isfile, try_except_all, os_remove, mret, M_ret.
  repeat (case_match; simplify_eq; cbn in * );
    eexists; (split; [reflexivity|]); cbn; repeat split;
    first [done | by apply subseteq_difference_l].
Qed.

Lemma install_packages_try_returns w pkgs s :
  ∃ r s' cs, install_packages_try w pkgs s = (r, s')
    ∧ calls s' = calls s ++ cs
    ∧ (cs = []
       ∨ ∃ fname, cs = [quiet_command w fname]
                  ∨ cs = [quiet_command w fname; verbose_command w fname])
    ∧ ((∃ b, r = Ret b)
       ∨ ∃ e e', r = Raise e'
                 ∧ print_error w ("Error during installation: " +:+ e)
                   = Some e').
Proof.
  unfold install_packages_try, try_except, mbind, M_bind,
    create_temporary_file, set_temp_req_file, write_temporary_file,
    subprocess_run, print, mret, M_ret, quiet_command, verbose_command.
  repeat (case_match; simplify_eq; cbn in * );
    do 3 eexists; (split; [reflexivity|]); cbn;
    (split;
     [first [ symmetry; apply app_nil_r
            | reflexivity
            | rewrite <- app_assoc; reflexivity ]
     |]);
    (split; [|eauto 10]);
    first [ now left
          | right; eexists; left; reflexivity
          | right; eexists; right; reflexivity ].
Qed.

Lemma install_packages_outcome_aux w pkgs s :
  ∃ r s' cs, install_packages w pkgs s = (r, s')
    ∧ calls s' = calls s ++ cs
    ∧ (cs = []
       ∨ ∃ fname, cs = [quiet_command w fname]
                  ∨ cs = [quiet_command w fname; verbose_command w fname])
    ∧ ((∃ b, r = Ret b)
       ∨ ∃ e e', r = Raise e'
                 ∧ print_error w ("Error during installation: " +:+ e)
                   = Some e').
Proof.
  unfold install_packages. destruct pkgs as [|p pkgs].
  - exists (Ret true), s, []. rewrite app_nil_r. repeat split; eauto.
  - unfold try_finally, mbind, M_bind, set_temp_req_file.
    destruct (install_packages_try_returns w (p :: pkgs)
                {| stdout := stdout s; calls := calls s; files := files s;
                   temp_req_file := None |})
      as (r & s1 & cs & -> & Hc & Hcs & Hr).
    destruct (install_packages_finally_returns w s1)
      as (s2 & -> & Hc2 & _).
    exists r, s2, cs. rewrite Hc2, Hc. done.
Qed.


Lemma install_packages_try_runs w pkgs s stem rc1 fs1 o2 fs2 :
  named_temporary_file w = inr stem →
  tmp_write_error w = None →
  run_process w (length (calls s)) (quiet_command w (stem +:+ ".txt"))
    ({[stem +:+ ".txt"]} ∪ files s) = (inr rc1, fs1) →
  run_process w (S (length (calls s))) (verbose_command w (stem +:+ ".txt"))
    fs1 = (o2, fs2) →
  ∃ s', install_packages_try w pkgs s
        = (if (rc1 =? 0)%Z then Ret true
           else match o2 with
                | inr rc2 => Ret (rc2 =? 0)%Z
                | inl e =>
                    match print_error w ("Error during installation: " +:+ e)
                    with
                    | None => Ret false
                    | Some e' => Raise e'
                    end
                end, s')
    ∧ calls s'
      = calls s ++ (if (rc1 =? 0)%Z
                    then [quiet_command w (stem +:+ ".txt")]
                    else [quiet_command w (stem +:+ ".txt");
                          verbose_command w (stem +:+ ".txt")]).
Proof.
  intros Hnt Hwr Hrun1 Hrun2.
  unfold install_packages_try, try_except, mbind, M_bind,
    create_temporary_file, set_temp_req_file, write_temporary_file,
    subprocess_run, print, mret, M_ret.
  unfold quiet_command, verbose_command in *.
  rewrite Hnt, Hwr. cbn.
  rewrite (print_error_ascii w _ (installing_line_ascii (length pkgs))).
  cbn. rewrite Hrun1.
  destruct (rc1 =? 0)%Z.
  - eexists. split; reflexivity.
  - cbn. ascii_prints. cbn. rewrite length_app, Nat.add_1_r. cbn.
    rewrite Hrun2.
    destruct o2 as [e|rc2]; cbn;
      [destruct (print_error w ("Error during installation: " +:+ e))|];
      cbn; eexists; (split; [reflexivity | cbn; now rewrite <- app_assoc]).
Qed.

(** X14: with the temporary file written, a quiet pip call that returns 0
    ends the call with True and no second subprocess; any other return code
    leads to exactly one verbose call on the same file, and the result is
    whether that one returned 0.  When the verbose call cannot be started,
    the error line is printed and the result is False, unless that print
    raises. *)
Theorem verbose_retry_decides w pkgs s stem rc1 fs1 o2 fs2 :
  pkgs ≠ [] →
  named_temporary_file w = inr stem →
  tmp_write_error w = None →
  run_process w (length (calls s)) (quiet_command w (stem +:+ ".txt"))
    ({[stem +:+ ".txt"]} ∪ files s) = (inr rc1, fs1) →
  run_process w (S (length (calls s))) (verbose_command w (stem +:+ ".txt"))
    fs1 = (o2, fs2) →
  ∃ s', install_packages w pkgs s
        = (if (rc1 =? 0)%Z then Ret true
           else match o2 with
                | inr rc2 => Ret (rc2 =? 0)%Z
                | inl e =>
                    match print_error w ("Error during installation: " +:+ e)
                    with
                    | None => Ret false
                    | Some e' => Raise e'
                    end
                end, s')
    ∧ calls s'
      = calls s ++ (if (rc1 =? 0)%Z
                    then [quiet_command w (stem +:+ ".txt")]
                    else [quiet_command w (stem +:+ ".txt");
                          verbose_command w (stem +:+ ".txt")]).
Proof.
  intros Hne Hnt Hwr Hrun1 Hrun2. destruct pkgs as [|p pkgs]; [done|].
  unfold install_packages, try_finally, mbind, M_bind, set_temp_req_file.
  destruct (install_packages_try_runs w (p :: pkgs)
              {| stdout := stdout s; calls := calls s; files := files s;
                 temp_req_file := None |} stem rc1 fs1 o2 fs2
              Hnt Hwr Hrun1 Hrun2) as (s1 & -> & Hc).
  destruct (install_packages_finally_returns w s1) as (s2 & -> & Hc2 & _).
  exists s2. now rewrite Hc2, Hc.
Qed.

Lemma verbose_retry_decides_witness :
  ∃ s', install_packages refusing_world ["flask>=2"] (initial_state ∅)
        = (Ret false, s')
    ∧ calls s' = [quiet_command refusing_world "/tmp/tmpk3x9.txt";
                  verbose_command refusing_world "/tmp/tmpk3x9.txt"].
Proof.
  apply (verbose_retry_decides refusing_world ["flask>=2"] (initial_state ∅)
           "/tmp/tmpk3x9" 1%Z ({["/tmp/tmpk3x9.txt"]} ∪ ∅)
           (inr 1%Z) ({["/tmp/tmpk3x9.txt"]} ∪ ∅));
    [discriminate | reflexivity..].
Defined.

(** X15: when the temporary file cannot be created, or cannot be written,
    no subprocess is started; the error line is printed and False is
    returned, unless that print raises, in which case nothing is printed and
    the exception of the print leaves the call. *)
Theorem no_temporary_file_no_installer w pkgs s e :
  pkgs ≠ [] →
  named_temporary_file w = inl e
  ∨ (∃ stem, named_temporary_file w = inr stem) ∧ tmp_write_error w = Some e →
  ∃ s', install_packages w pkgs s
        = (match print_error w ("Error during installation: " +:+ e) with
           | None => Ret false
           | Some e' => Raise e'
           end, s')
        ∧ calls s' = calls s
        ∧ stdout s'
          = stdout s
            ++ match print_error w ("Error during installation: " +:+ e) with
               | None => ["Error during installation: " +:+ e]
               | Some _ => []
               end.
Proof.
  intros Hne H. destruct pkgs as [|p pkgs]; [done|].
  unfold install_packages, try_finally. unfold mbind at 1.
  unfold M_bind, set_temp_req_file.
  match goal with
  | |- context [install_packages_try w ?l ?st] =>
      assert (∃ s1, install_packages_try w l st
                    = (match print_error w
                               ("Error during installation: " +:+ e) with
                       | None => Ret false
                       | Some e' => Raise e'
                       end, s1)
                    ∧ calls s1 = calls s
                    ∧ stdout s1
                      = stdout s
                        ++ match print_error w
                                   ("Error during installation: " +:+ e) with
                           | None => ["Error during installation: " +:+ e]
                           | Some _ => []
                           end)
        as (s1 & -> & Hc & Ho)
  end.
  { unfold install_packages_try, try_except, mbind, M_bind,
      create_temporary_file, set_temp_req_file, write_temporary_file,
      print, mret, M_ret.
    destruct H as [->|[[stem ->] ->]]; cbn;
      destruct (print_error w ("Error during installation: " +:+ e));
      cbn; eexists; rewrite ?app_nil_r; done. }
  destruct (install_packages_finally_returns w s1) as (s2 & -> & Hc2 & Ho2 & _).
  exists s2. now rewrite Hc2, Ho2.
Qed.

Lemma no_temporary_file_no_installer_witness :
  ∃ s', install_packages broken_world ["flask>=2"] (initial_state ∅)
        = (Ret false, s')
        ∧ calls s' = []
        ∧ stdout s' = [] ++ ["Error during installation: "
                             +:+ "[Errno 28] No space left on device"].
Proof.
  apply (no_temporary_file_no_installer broken_world ["flask>=2"]
           (initial_state ∅) "[Errno 28] No space left on device");
    [discriminate | left; reflexivity].
Defined.

(** ** Rules for outcomes *)

Lemma ends_bind {A B} (m : M A) (f : A → M B) s Q :
  ends m s (λ r s', match r with
                    | Ret a => ends (f a) s' Q
                    | Raise e => Q (Raise e) s'
                    | SysExit c => Q (SysExit c) s'
                    end) →
  ends (m ≫= f) s Q.
Proof.
  unfold ends, mbind, M_bind. now destruct (m s) as [[a|e|c] s'].
Qed.

Lemma ends_try_except {A} (m : M A) h s Q :
  ends m s (λ r s', match r with
                    | Raise e => ends (h e) s' Q
                    | _ => Q r s'
                    end) →
  ends (try_except m h) s Q.
Proof.
  unfold ends, try_except. now destruct (m s) as [[a|e|c] s'].
Qed.

Lemma ends_print w line s (Q : result () → State → Prop) :
  (print_error w line = None → Q (Ret ()) (log line s)) →
  (∀ e, print_error w line = Some e → Q (Raise e) s) →
  ends (print w line) s Q.
Proof.
  unfold ends, print. destruct (print_error w line); cbn; auto.
Qed.

Lemma ends_print_ascii w line s (Q : result () → State → Prop) :
  is_ascii line = true → Q (Ret ()) (log line s) → ends (print w line) s Q.
Proof.
  intros Ha HQ. apply ends_print; [done|].
  intros e He. now rewrite (print_error_ascii _ _ Ha) in He.
Qed.

Lemma ends_sys_exit c s (Q : result () → State → Prop) :
  Q (SysExit c) s → ends (sys_exit c) s Q.
Proof. done. Qed.

Lemma ends_isfile path s (Q : result bool → State → Prop) :
  Q (Ret (bool_decide (path ∈ files s))) s → ends (os_path_isfile path) s Q.
Proof. done. Qed.

Lemma ends_use {A} (m : M A) s (P Q : result A → State → Prop) :
  ends m s P → (∀ r s', P r s' → Q r s') → ends m s Q.
Proof. unfold ends. auto. Qed.

(** ** The parts of the orchestration *)

Lemma get_installed_packages_ends w s :
  ends (get_installed_packages w) s
    (λ r s', calls s' = calls s ∧ files s' = files s
             ∧ ((∃ inv, r = Ret inv) ∨ ∃ e, r = Raise e ∧ some_print_raises w e)).
Proof.
  unfold ends, get_installed_packages, try_except, mbind, M_bind, lift, print,
    some_print_raises.
  destruct (distributions w) as [e|dists]; cbn; [|eauto].
  destruct (print_error w _) eqn:E; cbn; eauto 10.
Qed.

Lemma parse_requirements_ends w path s :
  ends (parse_requirements w path) s
    (λ r s', calls s' = calls s ∧ files s' = files s
             ∧ ((∃ req, r = Ret req) ∨ ∃ e, r = Raise e ∧ some_print_raises w e)).
Proof.
  unfold ends, parse_requirements, try_except, mbind, M_bind, open_lines,
    lift, print, some_print_raises.
  destruct (bool_decide (path ∈ files s)); cbn;
    [destruct (read_text w path); cbn; [|eauto]|];
    destruct (print_error w _) eqn:E; cbn; eauto 10.
Qed.

Lemma install_packages_ends w pkgs s :
  ends (install_packages w pkgs) s
    (λ r s', ∃ cs, calls s' = calls s ++ cs ∧ length cs ≤ 2
                   ∧ ((∃ b, r = Ret b)
                      ∨ ∃ e, r = Raise e ∧ some_print_raises w e)).
Proof.
  unfold ends.
  destruct (install_packages_outcome_aux w pkgs s)
    as (r & s' & cs & -> & Hc & Hcs & Hr). cbn.
  exists cs. split; [done|]. split.
  - destruct Hcs as [->|[f [->| ->]]]; cbn; lia.
  - destruct Hr as [?|(e & e' & -> & He)]; [now left|right].
    exists e'. split; [done|]. unfold some_print_raises. eauto.
Qed.

Lemma install_requirements_fallback_ends w s :
  ends (install_requirements_fallback w (requirements_path w)) s
    (λ r s', calls s' = calls s ++ [fallback_command w]
             ∧ ((∃ b, r = Ret b)
                ∨ ∃ e, r = Raise e ∧ fallback_start_raises w e)).
Proof.
  unfold ends, install_requirements_fallback, mbind, M_bind, print,
    subprocess_run, mret, M_ret, fallback_command, fallback_start_raises.
  ascii_prints. cbn.
  destruct (run_process w (length (calls s)) _ (files s)) as [[e|rc] fs] eqn:E;
    cbn; (split; [reflexivity|]).
  - right. exists e. split; [done|].
    exists (length (calls s)), (files s).
    unfold fallback_command. now rewrite E.
  - left. eauto.
Qed.

Lemma fallback_then_report_ends w msg s :
  ends (ok ← install_requirements_fallback w (requirements_path w);
        if ok : bool then print w msg
        else print w (CROSS +:+ " Installation failed.");; sys_exit 1) s
    (λ r s', calls s' = calls s ++ [fallback_command w]
             ∧ (r = Ret () ∨ r = SysExit 1
                ∨ ∃ e, r = Raise e
                       ∧ (fallback_start_raises w e ∨ some_print_raises w e))).
Proof.
  apply ends_bind.
  eapply ends_use; [apply install_requirements_fallback_ends|].
  intros r s' [Hc [[b ->]|(e & -> & He)]]; [|eauto 10].
  destruct b.
  - apply ends_print.
    + intros _. cbn. auto.
    + intros e He. split; [done|]. right. right. exists e.
      split; [done|]. right. now exists msg.
  - apply ends_bind, ends_print.
    + intros _. apply ends_sys_exit. cbn. auto.
    + intros e He. cbv beta iota. split; [done|]. right. right. exists e.
      split; [done|]. right. unfold some_print_raises; eauto.
Qed.

Lemma handler_ends w e s :
  ends (print w ("Optimization failed (" +:+ e
                 +:+ "), using standard installation...");;
        ok ← install_requirements_fallback w (requirements_path w);
        if ok : bool then print w (CHECK +:+ " Requirements installed successfully.")
        else print w (CROSS +:+ " Installation failed.");; sys_exit 1) s
    (λ r s', (calls s' = calls s ∧ ∃ e', r = Raise e' ∧ some_print_raises w e')
             ∨ (calls s' = calls s ++ [fallback_command w]
                ∧ (r = Ret () ∨ r = SysExit 1
                   ∨ ∃ e', r = Raise e'
                           ∧ (fallback_start_raises w e'
                              ∨ some_print_raises w e')))).
Proof.
  apply ends_bind, ends_print.
  - intros _.
    eapply ends_use; [apply fallback_then_report_ends|].
    intros r s' [Hc Hr]. right. split; [exact Hc|exact Hr].
  - intros e' He. left. split; [done|]. exists e'. split; [done|].
    unfold some_print_raises; eauto.
Qed.

Lemma post_ret w cs : length cs ≤ 3 → orchestration_post w (Ret ()) cs.
Proof. intros H. unfold orchestration_post. auto with lia. Qed.

Lemma post_print_raise w e cs :
  length cs ≤ 3 → some_print_raises w e → orchestration_post w (Raise e) cs.
Proof. intros H He. unfold orchestration_post. eauto 10 with lia. Qed.

Lemma post_exit w cs :
  length cs ≤ 2 →
  orchestration_post w (SysExit 1) (cs ++ [fallback_command w]).
Proof.
  intros H. unfold orchestration_post. rewrite length_app, last_snoc. cbn.
  auto 10 with lia.
Qed.

(** Entering the handler of the outer [try] after at most three
    subprocesses, with an exception that the starting of the fallback or a
    print raised. *)
Lemma enter_handler w e s base cs0 :
  calls s = base ++ cs0 →
  length cs0 ≤ 3 →
  fallback_start_raises w e ∨ some_print_raises w e →
  ends (print w ("Optimization failed (" +:+ e
                 +:+ "), using standard installation...");;
        ok ← install_requirements_fallback w (requirements_path w);
        if ok : bool then print w (CHECK +:+ " Requirements installed successfully.")
        else print w (CROSS +:+ " Installation failed.");; sys_exit 1) s
    (λ r s', ∃ cs, calls s' = base ++ cs ∧ orchestration_post w r cs).
Proof.
  intros Hc Hlen Hsrc.
  eapply ends_use; [apply handler_ends|].
  intros r s' [[Hc' (e' & -> & He')]|[Hc' Hr]].
  - exists cs0. split; [now rewrite Hc', Hc|]. now apply post_print_raise.
  - exists (cs0 ++ [fallback_command w]).
    split; [now rewrite Hc', Hc, app_assoc|].
    unfold orchestration_post. rewrite length_app, last_snoc. cbn.
    split; [lia|]. split; [right; destruct Hsrc; eauto|].
    destruct Hr as [->|[->|(e' & -> & [He'|He'])]]; eauto 10.
Qed.

Lemma install_requirements_ends w s :
  ends (install_requirements w) s
    (λ r s', ∃ cs, calls s' = calls s ++ cs ∧ orchestration_post w r cs).
Proof.
  unfold install_requirements. cbv zeta.
  apply ends_bind, ends_isfile.
  destruct (bool_decide (requirements_path w ∈ files s)); cbn [negb].
  2: { apply ends_print_ascii; [done|]. exists []. rewrite app_nil_r.
       split; [done|]. apply post_ret. cbn. lia. }
  apply ends_bind, ends_print.
  2: { intros e He. exists []. rewrite app_nil_r. split; [done|].
       apply post_print_raise; [cbn; lia|unfold some_print_raises; eauto]. }
  intros _. apply ends_try_except, ends_bind.
  eapply ends_use; [apply get_installed_packages_ends|].
  intros r s1 (Hc1 & _ & [[inv ->]|(e & -> & He)]).
  2: { apply (enter_handler w e s1 (calls s) []);
         [now rewrite app_nil_r | cbn; lia | now right]. }
  apply ends_bind.
  eapply ends_use; [apply parse_requirements_ends|].
  intros r s2 (Hc2 & _ & [[req ->]|(e & -> & He)]).
  2: { apply (enter_handler w e s2 (calls s) []);
         [now rewrite app_nil_r, Hc2 | cbn; lia | now right]. }
  assert (Hs2 : calls s2 = calls s ++ []) by (now rewrite app_nil_r, Hc2).
  destruct req as [|e0 req].
  { apply ends_print_ascii; [done|]. exists [].
    split; [done|]. apply post_ret. cbn. lia. }
  destruct (check_requirements_satisfied (e0 :: req) inv) as [|p pkgs].
  { apply ends_print.
    - intros _. exists []. split; [done|]. apply post_ret. cbn. lia.
    - intros e He.
      apply (enter_handler w e s2 (calls s) []);
        [done | cbn; lia | right; unfold some_print_raises; eauto]. }
  apply ends_bind.
  eapply ends_use; [apply install_packages_ends|].
  intros r s3 (cs & Hc3 & Hlen & [[b ->]|(e & -> & He)]).
  2: { apply (enter_handler w e s3 (calls s) cs);
         [now rewrite Hc3, Hc2, Hc1 | lia | now right]. }
  assert (Hs3 : calls s3 = calls s ++ cs) by (now rewrite Hc3, Hc2, Hc1).
  destruct b.
  { apply ends_print.
    - intros _. exists cs. split; [done|]. apply post_ret. lia.
    - intros e He.
      apply (enter_handler w e s3 (calls s) cs);
        [done | lia | right; unfold some_print_raises; eauto]. }
  apply ends_bind, ends_print_ascii; [done|].
  eapply ends_use; [apply fallback_then_report_ends|].
  intros r s4 (Hc4 & Hr). cbn in Hc4. rewrite Hs3, <- app_assoc in Hc4.
  destruct Hr as [->|[->|(e & -> & He)]].
  - exists (cs ++ [fallback_command w]). split; [done|].
    apply post_ret. rewrite length_app. cbn. lia.
  - exists (cs ++ [fallback_command w]). split; [done|]. now apply post_exit.
  - apply (enter_handler w e s4 (calls s) (cs ++ [fallback_command w]));
      [done | rewrite length_app; cbn; lia | done].
Qed.

Lemma ends_eq {A} (m : M A) s r s' (Q : result A → State → Prop) :
  m s = (r, s') → Q r s' → ends m s Q.
Proof. unfold ends. now intros ->. Qed.

Lemma no_print_raises w e : stdout_takes_all w → ¬ some_print_raises w e.
Proof.
  intros Hall [line He]. now rewrite (print_error_all _ _ Hall) in He.
Qed.

(** ** Further properties of the orchestration *)

(** X16: a run of [install_requirements] that does not end normally either
    exits with code 1, the fallback pip command being the last subprocess it
    started, or ends with an exception; that exception was raised by the
    starting of the fallback command, which is then the last subprocess, or
    by a print. *)
Theorem failure_only_after_fallback w s :
  (install_requirements w s).1 ≠ Ret () →
  ∃ cs, calls (install_requirements w s).2 = calls s ++ cs
        ∧ (((install_requirements w s).1 = SysExit 1
            ∧ last cs = Some (fallback_command w))
           ∨ ∃ e, (install_requirements w s).1 = Raise e
                  ∧ ((fallback_start_raises w e
                      ∧ last cs = Some (fallback_command w))
                     ∨ some_print_raises w e)).
Proof.
  pose proof (install_requirements_ends w s) as H. unfold ends in H.
  destruct H as (cs & Hc & _ & _ & Hr). intros Hne.
  exists cs. split; [done|]. destruct Hr as [?|[?|?]]; [done|auto..].
Qed.

Lemma failure_only_after_fallback_witness :
  ∃ cs, calls (install_requirements refusing_world
                 (initial_state {["/app/requirements.txt"]})).2 = [] ++ cs
        ∧ (((install_requirements refusing_world
               (initial_state {["/app/requirements.txt"]})).1 = SysExit 1
            ∧ last cs = Some (fallback_command refusing_world))
           ∨ ∃ e, (install_requirements refusing_world
                     (initial_state {["/app/requirements.txt"]})).1 = Raise e
                  ∧ ((fallback_start_raises refusing_world e
                      ∧ last cs = Some (fallback_command refusing_world))
                     ∨ some_print_raises refusing_world e)).
Proof.
  apply (failure_only_after_fallback refusing_world
           (initial_state {["/app/requirements.txt"]})).
  vm_compute. discriminate.
Defined.

(** X17: when every subprocess can at least be started and stdout can take
    every line, no exception leaves [install_requirements]: it returns
    normally or exits with code 1, after at most three subprocesses. *)
Theorem no_exception_when_pip_starts w s :
  (∀ n cmd fs, ∃ rc, (run_process w n cmd fs).1 = inr rc) →
  stdout_takes_all w →
  ((install_requirements w s).1 = Ret ()
   ∨ (install_requirements w s).1 = SysExit 1)
  ∧ ∃ cs, calls (install_requirements w s).2 = calls s ++ cs ∧ length cs ≤ 3.
Proof.
  intros Hstart Hall.
  assert (Hno : ∀ e, ¬ fallback_start_raises w e).
  { intros e (n & fs & He). destruct (Hstart n (fallback_command w) fs).
    congruence. }
  pose proof (install_requirements_ends w s) as H. unfold ends in H.
  destruct H as (cs & Hc & _ & Hlen & Hr). split.
  - destruct Hr as [?|[[? _]|(e & _ & [[He _]|He])]]; [auto..| |].
    + now destruct (Hno e).
    + now destruct (no_print_raises w e Hall).
  - exists cs. split; [done|]. destruct Hlen as [?|[[e He]|[e He]]]; [done| |].
    + now destruct (Hno e).
    + now destruct (no_print_raises w e Hall).
Qed.

Lemma no_exception_when_pip_starts_witness :
  ((install_requirements refusing_world
      (initial_state {["/app/requirements.txt"]})).1 = Ret ()
   ∨ (install_requirements refusing_world
        (initial_state {["/app/requirements.txt"]})).1 = SysExit 1)
  ∧ ∃ cs, calls (install_requirements refusing_world
                   (initial_state {["/app/requirements.txt"]})).2 = [] ++ cs
          ∧ length cs ≤ 3.
Proof.
  apply (no_exception_when_pip_starts refusing_world
           (initial_state {["/app/requirements.txt"]})).
  - intros n cmd fs. exists 1%Z. reflexivity.
  - intros line. reflexivity.
Defined.

(** X20: whatever the environment does, one run of [install_requirements]
    starts at most four subprocesses. *)
Theorem at_most_four_subprocesses w s :
  ∃ cs, calls (install_requirements w s).2 = calls s ++ cs ∧ length cs ≤ 4.
Proof.
  pose proof (install_requirements_ends w s) as H. unfold ends in H.
  destruct H as (cs & Hc & Hlen & _). eauto.
Qed.

Lemma install_requirements_fallback_unstartable w s :
  (∀ n cmd fs, ∃ e, (run_process w n cmd fs).1 = inl e) →
  ends (install_requirements_fallback w (requirements_path w)) s
    (λ r s', calls s' = calls s ++ [fallback_command w] ∧ ∃ e, r = Raise e).
Proof.
  intros Hraise.
  unfold ends, install_requirements_fallback, mbind, M_bind, print,
    subprocess_run, mret, M_ret, fallback_command.
  ascii_prints. cbn.
  match goal with
  | |- context [run_process w ?n ?c ?f] =>
      destruct (Hraise n c f) as (e & He);
      destruct (run_process w n c f) as [[e'|rc] fs]; cbn in He; [|done]
  end.
  cbn. eauto.
Qed.

Lemma install_packages_unstartable_aux w pkgs s :
  pkgs ≠ [] →
  (∀ n cmd fs, ∃ e, (run_process w n cmd fs).1 = inl e) →
  ∃ r s' cs, install_packages w pkgs s = (r, s')
    ∧ calls s' = calls s ++ cs
    ∧ (r = Ret false ∨ ∃ e, r = Raise e ∧ some_print_raises w e).
Proof.
  intros Hne Hraise. destruct pkgs as [|p pkgs]; [done|].
  unfold install_packages, try_finally. unfold mbind at 1.
  unfold M_bind, set_temp_req_file.
  match goal with
  | |- context [install_packages_try w ?l ?st] =>
      assert (∃ r s1 cs, install_packages_try w l st = (r, s1)
                ∧ calls s1 = calls s ++ cs
                ∧ (r = Ret false
                   ∨ ∃ e, r = Raise e ∧ some_print_raises w e))
        as (r & s1 & cs & -> & Hc & Hr)
  end.
  { unfold install_packages_try, try_except, mbind, M_bind,
      create_temporary_file, set_temp_req_file, write_temporary_file,
      subprocess_run, print, mret, M_ret, some_print_raises.
    repeat (case_match; simplify_eq; cbn in * );
      try match goal with
          | E : run_process w ?n ?c ?f = (inr _, _) |- _ =>
              destruct (Hraise n c f) as (? & He); rewrite E in He;
              discriminate He
          end;
      do 3 eexists; (split; [reflexivity|]); cbn;
      (split; [first [ symmetry; apply app_nil_r | reflexivity ]|]);
      eauto 10. }
  destruct (install_packages_finally_returns w s1) as (s2 & -> & Hc2 & _).
  exists r, s2, cs. rewrite Hc2. done.
Qed.

Lemma install_packages_unstartable w pkgs s :
  pkgs ≠ [] →
  (∀ n cmd fs, ∃ e, (run_process w n cmd fs).1 = inl e) →
  ends (install_packages w pkgs) s
    (λ r s', ∃ cs, calls s' = calls s ++ cs
                   ∧ (r = Ret false ∨ ∃ e, r = Raise e ∧ some_print_raises w e)).
Proof.
  intros Hne Hraise. unfold ends.
  destruct (install_packages_unstartable_aux w pkgs s Hne Hraise)
    as (r & s' & cs & -> & Hc & Hr).
  cbn. eauto.
Qed.

(** X18: when there is something to install and no subprocess can be started
    at all, [install_requirements] ends with an exception.  On a stdout that
    takes every line the last two subprocesses it tried to start are both the
    fallback: the failed start inside the [try] is caught by the outer
    handler, which starts the fallback once more and lets that second failure
    through. *)
Theorem unstartable_pip_escapes w s inv req s1 s2 :
  requirements_path w ∈ files s →
  get_installed_packages w
    (log ("Checking requirements from " +:+ requirements_path w +:+ "...") s)
  = (Ret inv, s1) →
  parse_requirements w (requirements_path w) s1 = (Ret req, s2) →
  check_requirements_satisfied req inv ≠ [] →
  (∀ n cmd fs, ∃ e, (run_process w n cmd fs).1 = inl e) →
  ∃ e s' cs, install_requirements w s = (Raise e, s')
    ∧ calls s' = calls s ++ cs
    ∧ (stdout_takes_all w →
       ∃ cs', cs = cs' ++ [fallback_command w; fallback_command w]).
Proof.
  intros Hin Hinv Hreq Hcheck Hraise.
  pose proof (get_installed_packages_frame w
                (log ("Checking requirements from "
                      +:+ requirements_path w +:+ "...") s)) as [Hc1 _].
  pose proof (parse_requirements_frame w (requirements_path w) s1) as [Hc2 _].
  rewrite Hinv in Hc1. rewrite Hreq in Hc2. cbn in Hc1, Hc2.
  assert (Hs2 : calls s2 = calls s) by (now rewrite Hc2, Hc1).
  enough (ends (install_requirements w) s
            (λ r s', ∃ e cs, r = Raise e ∧ calls s' = calls s ++ cs
               ∧ (stdout_takes_all w →
                  ∃ cs', cs = cs' ++ [fallback_command w; fallback_command w])))
    as H.
  { unfold ends in H. destruct (install_requirements w s) as [r s'].
    destruct H as (e & cs & Hr & Hc & Hpat). cbn in *. subst r. eauto 10. }
  assert (Hhandler : ∀ e0 st cs0,
    calls st = calls s ++ cs0 →
    (stdout_takes_all w → ∃ cs', cs0 = cs' ++ [fallback_command w]) →
    ends (print w ("Optimization failed (" +:+ e0
                   +:+ "), using standard installation...");;
          ok ← install_requirements_fallback w (requirements_path w);
          if ok : bool
          then print w (CHECK +:+ " Requirements installed successfully.")
          else print w (CROSS +:+ " Installation failed.");; sys_exit 1) st
      (λ r s', ∃ e cs, r = Raise e ∧ calls s' = calls s ++ cs
         ∧ (stdout_takes_all w →
            ∃ cs', cs = cs' ++ [fallback_command w; fallback_command w]))).
  { intros e0 st cs0 Hst Hcs0. apply ends_bind, ends_print.
    - intros _. apply ends_bind.
      eapply ends_use; [apply install_requirements_fallback_unstartable, Hraise|].
      intros r s' (Hc & e & ->). cbn in Hc.
      exists e, (cs0 ++ [fallback_command w]).
      split; [done|]. split; [now rewrite Hc, Hst, app_assoc|].
      intros Hall. destruct (Hcs0 Hall) as [cs' ->]. exists cs'.
      now rewrite <- app_assoc.
    - intros e He. exists e, cs0. split; [done|]. split; [done|].
      intros Hall. destruct (no_print_raises w e Hall).
      unfold some_print_raises; eauto. }
  unfold install_requirements. cbv zeta.
  apply ends_bind, ends_isfile. rewrite (bool_decide_eq_true_2 _ Hin).
  cbn [negb]. apply ends_bind, ends_print.
  2: { intros e He. exists e, []. rewrite app_nil_r. do 2 (split; [done|]).
       intros Hall. destruct (no_print_raises w e Hall).
       unfold some_print_raises; eauto. }
  intros _. apply ends_try_except, ends_bind.
  apply (ends_eq _ _ _ _ _ Hinv). apply ends_bind.
  apply (ends_eq _ _ _ _ _ Hreq).
  destruct req as [|e0 req]; [done|].
  destruct (check_requirements_satisfied (e0 :: req) inv) as [|p pkgs];
    [done|].
  apply ends_bind.
  eapply ends_use;
    [apply (install_packages_unstartable w (p :: pkgs) s2); [done|exact Hraise]|].
  intros r s3 (cs & Hc3 & [->|(e & -> & He)]).
  - apply ends_bind, ends_print_ascii; [done|]. apply ends_bind.
    eapply ends_use; [apply install_requirements_fallback_unstartable, Hraise|].
    intros r s4 (Hc4 & e & ->). cbn in Hc4.
    apply (Hhandler e s4 (cs ++ [fallback_command w])).
    + now rewrite Hc4, Hc3, Hs2, app_assoc.
    + intros _. now exists cs.
  - apply (Hhandler e s3 cs).
    + now rewrite Hc3, Hs2.
    + intros Hall. now destruct (no_print_raises w e Hall).
Qed.

Lemma unstartable_pip_escapes_witness :
  ∃ e s' cs,
    install_requirements pipless_world
      (initial_state {["/app/requirements.txt"]}) = (Raise e, s')
    ∧ calls s' = [] ++ cs
    ∧ (stdout_takes_all pipless_world →
       ∃ cs', cs = cs' ++ [fallback_command pipless_world;
                           fallback_command pipless_world]).
Proof.
  eapply (unstartable_pip_escapes pipless_world
            (initial_state {["/app/requirements.txt"]}));
    [apply (bool_decide_unpack _); by vm_compute
    | reflexivity | by vm_compute | by vm_compute | ].
  intros n cmd fs. eexists. reflexivity.
Defined.

Lemma parse_requirements_no_entries w path s :
  path ∈ files s →
  (∃ e, read_text w path = inl e)
  ∨ (∃ lines, read_text w path = inr lines ∧ parse_lines lines = []) →
  stdout_takes_all w →
  ∃ s', parse_requirements w path s = (Ret [], s').
Proof.
  intros Hin Hread Hall.
  unfold parse_requirements, try_except, mbind, M_bind, open_lines, lift,
    print, mret, M_ret.
  rewrite (bool_decide_eq_true_2 _ Hin).
  destruct Hread as [[e ->]|(lines & -> & ->)]; [|eauto].
  rewrite (print_error_all _ _ Hall). eauto.
Qed.

(** X19: on a stdout that takes every line, a manifest that exists but
    cannot be read, or holds no line that parses, makes
    [install_requirements] return normally without starting any subprocess,
    not even the fallback; the last line printed says that no valid packages
    were found. *)
Theorem unreadable_manifest_is_no_op w s :
  requirements_path w ∈ files s →
  (∃ e, read_text w (requirements_path w) = inl e)
  ∨ (∃ lines, read_text w (requirements_path w) = inr lines
              ∧ parse_lines lines = []) →
  stdout_takes_all w →
  ∃ s', install_requirements w s = (Ret (), s')
        ∧ calls s' = calls s
        ∧ last (stdout s')
          = Some "No valid packages found in requirements.txt".
Proof.
  intros Hin Hread Hall.
  enough (ends (install_requirements w) s
            (λ r s', r = Ret () ∧ calls s' = calls s
               ∧ last (stdout s')
                 = Some "No valid packages found in requirements.txt")) as H.
  { unfold ends in H. destruct (install_requirements w s) as [r s'].
    cbn in H. destruct H as (-> & ? & ?). eauto. }
  unfold install_requirements. cbv zeta.
  apply ends_bind, ends_isfile. rewrite (bool_decide_eq_true_2 _ Hin).
  cbn [negb]. apply ends_bind, ends_print.
  2: { intros e He. destruct (no_print_raises w e Hall).
       unfold some_print_raises; eauto. }
  intros _. apply ends_try_except, ends_bind.
  eapply ends_use; [apply get_installed_packages_ends|].
  intros r s1 (Hc1 & Hf1 & [[inv ->]|(e & -> & He)]);
    [|now destruct (no_print_raises w e Hall)].
  apply ends_bind.
  destruct (parse_requirements_no_entries w (requirements_path w) s1)
    as [s2 Hparse]; [now rewrite Hf1|done..|].
  pose proof (parse_requirements_frame w (requirements_path w) s1) as [Hc2 _].
  rewrite Hparse in Hc2. cbn in Hc2.
  apply (ends_eq _ _ _ _ _ Hparse).
  apply ends_print_ascii; [done|]. cbn.
  rewrite last_snoc, Hc2, Hc1. done.
Qed.

Lemma unreadable_manifest_is_no_op_witness :
  ∃ s', install_requirements broken_world
          (initial_state {["/app/requirements.txt"]}) = (Ret (), s')
        ∧ calls s' = []
        ∧ last (stdout s')
          = Some "No valid packages found in requirements.txt".
Proof.
  apply (unreadable_manifest_is_no_op broken_world
           (initial_state {["/app/requirements.txt"]}));
    [apply (bool_decide_unpack _); by vm_compute| |intros line; reflexivity].
  left. eexists. reflexivity.
Defined.

(** X21: when nothing is to be installed but the line that says so cannot be
    written to stdout, the exception of that print is caught by the handler
    of the outer [try]; if the handler's own first line can be printed, the
    fallback pip command is started, and it is the only subprocess of the
    run. *)
Theorem unprintable_status_starts_fallback w s inv req s1 s2 e :
  requirements_path w ∈ files s →
  print_error w ("Checking requirements from " +:+ requirements_path w +:+ "...")
  = None →
  get_installed_packages w
    (log ("Checking requirements from " +:+ requirements_path w +:+ "...") s)
  = (Ret inv, s1) →
  parse_requirements w (requirements_path w) s1 = (Ret req, s2) →
  req ≠ [] →
  check_requirements_satisfied req inv = [] →
  print_error w (CHECK +:+ " All requirements already satisfied.") = Some e →
  print_error w ("Optimization failed (" +:+ e
                 +:+ "), using standard installation...") = None →
  calls (install_requirements w s).2 = calls s ++ [fallback_command w].
Proof.
  intros Hin Hp0 Hinv Hreq Hne Hcheck Hp1 Hp2.
  pose proof (get_installed_packages_frame w
                (log ("Checking requirements from "
                      +:+ requirements_path w +:+ "...") s)) as [Hc1 _].
  pose proof (parse_requirements_frame w (requirements_path w) s1) as [Hc2 _].
  rewrite Hinv in Hc1. rewrite Hreq in Hc2. cbn in Hc1, Hc2.
  enough (ends (install_requirements w) s
            (λ _ s', calls s' = calls s ++ [fallback_command w])) as H by exact H.
  unfold install_requirements. cbv zeta.
  apply ends_bind, ends_isfile. rewrite (bool_decide_eq_true_2 _ Hin).
  cbn [negb]. apply ends_bind, ends_print; [|congruence].
  intros _. apply ends_try_except, ends_bind.
  apply (ends_eq _ _ _ _ _ Hinv). apply ends_bind.
  apply (ends_eq _ _ _ _ _ Hreq).
  destruct req as [|e0 req]; [done|]. rewrite Hcheck.
  apply ends_print; [congruence|].
  intros e' He'. rewrite Hp1 in He'. simplify_eq.
  apply ends_bind, ends_print; [|congruence].
  intros _.
  eapply ends_use; [apply fallback_then_report_ends|].
  intros r s' [Hc _]. cbn in Hc. now rewrite Hc, Hc2, Hc1.
Qed.

Lemma unprintable_status_starts_fallback_witness :
  calls (install_requirements ascii_world
           (initial_state {["/app/requirements.txt"]})).2
  = [] ++ [fallback_command ascii_world].
Proof.
  eapply (unprintable_status_starts_fallback ascii_world
            (initial_state {["/app/requirements.txt"]}));
    [apply (bool_decide_unpack _); by vm_compute
    | reflexivity | reflexivity | by vm_compute | discriminate
    | by vm_compute | reflexivity | reflexivity].
Defined.
